(** * GitHub Projects V2 client: a shallow embedding of
    [src/github_projects_mcp/github_client.py]

    The client talks to a remote GraphQL endpoint and works on the parsed
    JSON documents it gets back.  The embedding keeps the three ingredients
    the Python code relies on:

    - dynamically typed values ([Py.pyval]) with Python's truthiness,
      [dict.get], subscripting, membership and [isinstance] tests;
    - exceptions ([Py.exn]): the client's own [GitHubClientError] and the
      built-in errors that unguarded steps can raise;
    - the sequence of transport calls of one operation, as a log of requests
      threaded through a small state-and-error monad ([GitHubClient.io]).

    Left out: the calls to the logger, which change no result; the texts of
    the GraphQL documents, which are fixed and stand here under their
    operation names; and the resource limits of the interpreter (recursion
    depth).  The interpreter's limit on the digits of an integer that is
    converted to text is applied where a value of the caller's is converted
    ([GitHubClient.str_of_value]); the numbers of projects and issues, which
    the queries declare as 32-bit integers, and the values of parsed bodies
    are taken within it. *)

From Stdlib Require Import ZArith List String Ascii Bool Lia.
From Stdlib Require Import Floats.SpecFloat DecimalString.
Import ListNotations.

#[local] Set Warnings "-register-all".

Local Open Scope string_scope.
Local Open Scope Z_scope.

(* ================================================================== *)
(** * Python values                                                     *)
(* ================================================================== *)

Module Py.

(** Values as [response.json()] produces them and as callers pass them in:
    [None], booleans, unbounded integers, binary64 floats, strings, lists and
    insertion-ordered dictionaries. *)
Inductive pyval : Type :=
| PNone
| PBool (b : bool)
| PInt (n : Z)
| PFloat (x : spec_float)
| PStr (s : string)
| PList (items : list pyval)
| PDict (entries : list (pyval * pyval)).

(** The exception classes that occur: the client's own class, and the
    built-in errors of attribute access, subscripting, membership tests,
    numeric conversion and the conversion of an integer to text. *)
Inductive exn : Type :=
| GitHubClientError (msg : string)
| AttributeError
| KeyError
| TypeError
| OverflowError
| ValueError.

(** A computation either returns or raises. *)
Inductive result (A : Type) : Type :=
| Ok (a : A)
| Raise (e : exn).
Arguments Ok {A} a.
Arguments Raise {A} e.

Definition bind {A B : Type} (r : result A) (k : A -> result B) : result B :=
  match r with
  | Ok a => k a
  | Raise e => Raise e
  end.

Notation "x <- c ;; k" := (bind c (fun x => k))
  (at level 61, c at next level, right associativity).

(** ** Truthiness: [bool(v)] *)

Definition float_is_zero (x : spec_float) : bool :=
  match x with
  | S754_zero _ => true
  | _ => false
  end.

Definition truthy (v : pyval) : bool :=
  match v with
  | PNone => false
  | PBool b => b
  | PInt n => negb (n =? 0)
  | PFloat x => negb (float_is_zero x)
  | PStr s => negb (s =? "")%string
  | PList items => match items with [] => false | _ :: _ => true end
  | PDict entries => match entries with [] => false | _ :: _ => true end
  end.

Definition is_none (v : pyval) : bool :=
  match v with
  | PNone => true
  | _ => false
  end.

(** ** [isinstance] tests.  [bool] is a subclass of [int]. *)

Definition isinstance_str (v : pyval) : bool :=
  match v with
  | PStr _ => true
  | _ => false
  end.

Definition isinstance_int_float (v : pyval) : bool :=
  match v with
  | PBool _ | PInt _ | PFloat _ => true
  | _ => false
  end.

(** ** Numbers *)

Definition prec : Z := 53.
Definition emax : Z := 1024.

(** [float(n)] for an integer: round to nearest, ties to even; an integer
    that rounds beyond the largest finite double raises [OverflowError]. *)
Definition float_of_int (n : Z) : result spec_float :=
  match binary_normalize prec emax n 0 false with
  | S754_infinity _ => Raise OverflowError
  | x => Ok x
  end.

(** [float(v)] *)
Definition py_float (v : pyval) : result spec_float :=
  match v with
  | PBool b => float_of_int (Z.b2z b)
  | PInt n => float_of_int n
  | PFloat x => Ok x
  | _ => Raise TypeError
  end.

(** The integer a float denotes, when it denotes one. *)
Definition float_integral (x : spec_float) : option Z :=
  match x with
  | S754_zero _ => Some 0
  | S754_finite s m e =>
      let signed := if s then Z.neg m else Z.pos m in
      if 0 <=? e then Some (signed * 2 ^ e)
      else if Z.pos m mod 2 ^ (- e) =? 0 then Some (signed / 2 ^ (- e))
      else None
  | _ => None
  end.

(** The decimal rendering of an integer: what [str(n)] and f-strings give
    for an integer within the interpreter's limit on the conversion, which
    [within_str_digits] below states. *)
Definition str_int (n : Z) : string := NilZero.string_of_int (Z.to_int n).

(** The conversion of an integer to text is refused with [ValueError] for
    an integer of more than [max_str_digits] decimal digits, the sign not
    counted: an integer of magnitude [10 ^ 4300] or more.  4300 is the
    interpreter's default. *)
Definition max_str_digits : Z := 4300.

Definition within_str_digits (n : Z) : bool := Z.abs n <? 10 ^ max_str_digits.

(** [str(v)] returns.  A string is returned as it is, and the texts of
    [None], of a bool and of a float are always there; the text of a list or
    of a dictionary holds the text of everything in it, so it is refused as
    soon as one integer in it is.  (Nesting beyond what the interpreter's
    stack takes is a limit of resources and is left out.) *)
Fixpoint renders (v : pyval) : bool :=
  match v with
  | PInt n => within_str_digits n
  | PList items => forallb renders items
  | PDict entries => forallb (fun '(k, x) => renders k && renders x) entries
  | _ => true
  end.

(** ** Dictionaries *)

(** Equality of two hashable keys.  Numbers compare by value across [bool],
    [int] and [float]; a NaN equals nothing. *)
Definition key_eqb (k1 k2 : pyval) : bool :=
  match k1, k2 with
  | PNone, PNone => true
  | PStr s1, PStr s2 => (s1 =? s2)%string
  | PBool b1, PBool b2 => Bool.eqb b1 b2
  | PBool b, PInt n | PInt n, PBool b => n =? Z.b2z b
  | PInt n1, PInt n2 => n1 =? n2
  | PFloat x1, PFloat x2 => SFeqb x1 x2
  | PFloat x, PInt n | PInt n, PFloat x =>
      match float_integral x with Some m => m =? n | None => false end
  | PFloat x, PBool b | PBool b, PFloat x =>
      match float_integral x with Some m => m =? Z.b2z b | None => false end
  | _, _ => false
  end.

Definition hashable (k : pyval) : bool :=
  match k with
  | PList _ | PDict _ => false
  | _ => true
  end.

Fixpoint lookup (k : pyval) (entries : list (pyval * pyval)) : option pyval :=
  match entries with
  | [] => None
  | (k', v) :: rest => if key_eqb k' k then Some v else lookup k rest
  end.

(** [d[k] = v] on the entries of a dictionary: an existing key keeps its
    position, a new key goes last. *)
Fixpoint store (k v : pyval) (entries : list (pyval * pyval))
  : list (pyval * pyval) :=
  match entries with
  | [] => [(k, v)]
  | (k', v') :: rest =>
      if key_eqb k' k then (k', v) :: rest else (k', v') :: store k v rest
  end.

(** [d.get(k, default)] with a string key; only dictionaries have [get]. *)
Definition get (d : pyval) (k : string) (default : pyval) : result pyval :=
  match d with
  | PDict entries =>
      match lookup (PStr k) entries with
      | Some v => Ok v
      | None => Ok default
      end
  | _ => Raise AttributeError
  end.

(** [d[k]] with a string key. *)
Definition getitem (d : pyval) (k : string) : result pyval :=
  match d with
  | PDict entries =>
      match lookup (PStr k) entries with
      | Some v => Ok v
      | None => Raise KeyError
      end
  | _ => Raise TypeError
  end.

(** [d[k] = v] *)
Definition setitem (d : pyval) (k v : pyval) : result pyval :=
  match d with
  | PDict entries =>
      if hashable k then Ok (PDict (store k v entries)) else Raise TypeError
  | PList _ => Raise TypeError
  | _ => Raise TypeError
  end.

(** [needle in hay] for strings. *)
Fixpoint substring_of (needle hay : string) : bool :=
  if String.prefix needle hay then true
  else match hay with
       | EmptyString => false
       | String _ rest => substring_of needle rest
       end.

(** [k in v] with a string [k]: key membership in a dictionary, element
    membership in a list, substring test in a string. *)
Definition contains (v : pyval) (k : string) : result bool :=
  match v with
  | PDict entries =>
      Ok (match lookup (PStr k) entries with Some _ => true | None => false end)
  | PList items => Ok (existsb (key_eqb (PStr k)) items)
  | PStr s => Ok (substring_of k s)
  | _ => Raise TypeError
  end.

End Py.

(* ================================================================== *)
(** * The client                                                        *)
(* ================================================================== *)

Module GitHubClient.
Import Py.

(** One transport invocation: the GraphQL document, named by its operation
    name (the documents are fixed texts), and the variables sent with it. *)
Record request : Type := Request { query : string; variables : pyval }.

(** What one HTTP exchange inside [execute_query] comes to. *)
Inductive http_outcome : Type :=
| HTTPStatusError (status_code : Z) (text : string)
    (* [response.raise_for_status()] raised *)
| OtherException (text : string)
    (* anything else raised by [client.post] or [response.json()]: no
       connection, time-out, undecodable body; [text] is [str(e)] *)
| Body (result : pyval).
    (* the parsed JSON body of a response with a success status *)

(** An operation runs against the log of the requests made so far and
    leaves the extended log: state passing with exceptions. *)
Definition io (A : Type) : Type := list request -> result A * list request.

Definition io_raise {A : Type} (e : exn) : io A := fun log => (Raise e, log).

Definition io_bind {A B : Type} (c : io A) (k : A -> io B) : io B :=
  fun log =>
    match c log with
    | (Ok a, log') => k a log'
    | (Raise e, log') => (Raise e, log')
    end.

(** A step that makes no call. *)
Definition pure {A : Type} (r : result A) : io A := fun log => (r, log).

Notation "x <~ c ;; k" := (io_bind c (fun x => k))
  (at level 61, c at next level, right associativity).

Section Client.

(** The interpreter's [repr], used where a value that is not a string is
    formatted, and its wording of built-in errors. *)
Variable repr : pyval -> string.
Variable builtin_text : exn -> string.

(** The remote end: its answer to a request may depend on every request
    made before. *)
Variable remote : list request -> request -> http_outcome.

(** The text of [str(v)], also what an f-string substitutes for [{v}].  The
    values of a parsed body have one: [response.json()] refuses an integer
    beyond the limit on the conversion, which binds the parser as well. *)
Definition str (v : pyval) : string :=
  match v with
  | PStr s => s
  | PNone => "None"
  | PBool true => "True"
  | PBool false => "False"
  | PInt n => str_int n
  | _ => repr v
  end.

(** [str(value)] on a value of the caller's, which may hold any integer. *)
Definition str_of_value (value : pyval) : Py.result string :=
  if renders value then Ok (str value) else Raise ValueError.

(** [str(e)] for an exception. *)
Definition str_exn (e : exn) : string :=
  match e with
  | GitHubClientError msg => msg
  | _ => builtin_text e
  end.

(** ** [execute_query] (lines 40-86) *)

(** The body of the [try] block once [response.json()] has returned. *)
Definition check_result (result : pyval) : Py.result pyval :=
  has_errors <- contains result "errors" ;;
  if (has_errors : bool) then
    errors <- getitem result "errors" ;;
    Raise (GitHubClientError ("GraphQL query errors: " ++ str errors))
  else
    data <- get result "data" PNone ;;
    if is_none data then
      Raise (GitHubClientError "GraphQL query returned no data and no errors.")
    else Ok data.

(** The [try] block with its two handlers.  [raise_for_status] goes to the
    first handler; every other exception, the two [GitHubClientError]s raised
    inside the block included, goes to the second. *)
Definition handle (outcome : http_outcome) : Py.result pyval :=
  match outcome with
  | HTTPStatusError status_code text =>
      Raise (GitHubClientError
               ("HTTP error executing GraphQL query: " ++ str_int status_code
                ++ " - " ++ text))
  | OtherException text =>
      Raise (GitHubClientError
               ("Unexpected error executing GraphQL query: " ++ text))
  | Body result =>
      match check_result result with
      | Ok data => Ok data
      | Raise e =>
          Raise (GitHubClientError
                   ("Unexpected error executing GraphQL query: " ++ str_exn e))
      end
  end.

Definition execute_query (query : string) (variables : pyval) : io pyval :=
  fun log =>
    let query_variables := if truthy variables then variables else PDict [] in
    let payload := Request query query_variables in
    (handle (remote log payload), (log ++ [payload])%list).

(** A dictionary literal with string keys. *)
Definition dict (entries : list (string * pyval)) : pyval :=
  PDict (map (fun '(k, v) => (PStr k, v)) entries).

(** The test [not result.get(a) or not result[a].get(b)] that guards every
    nested read. *)
Definition lacks (result : pyval) (a b : string) : Py.result bool :=
  outer <- get result a PNone ;;
  if negb (truthy outer) then Ok true
  else
    outer <- getitem result a ;;
    inner <- get outer b PNone ;;
    Ok (negb (truthy inner)).

(** [result[a][b]] *)
Definition getitem2 (result : pyval) (a b : string) : Py.result pyval :=
  outer <- getitem result a ;;
  getitem outer b.

(** [if lacks: raise GitHubClientError(msg)], then [return result[a][b]].
    The handlers [except GitHubClientError as e: ...; raise] around the
    calls and checks of every operation re-raise what they caught, so they
    do not show in the embedding. *)
Definition require (result : pyval) (a b msg : string) : Py.result pyval :=
  missing <- lacks result a b ;;
  if (missing : bool) then Raise (GitHubClientError msg)
  else getitem2 result a b.

(** [for x in v]: the elements a loop over [v] visits. *)
Definition iterate (v : pyval) : Py.result (list pyval) :=
  match v with
  | PList items => Ok items
  | PDict entries => Ok (map fst entries)
  | PStr s =>
      Ok (map (fun c => PStr (String c EmptyString)) (list_ascii_of_string s))
  | _ => Raise TypeError
  end.

(** Run [f] over a list in order, stopping at the first exception. *)
Fixpoint for_each {A B : Type} (f : A -> Py.result B) (l : list A)
  : Py.result (list B) :=
  match l with
  | [] => Ok []
  | x :: rest =>
      y <- f x ;;
      ys <- for_each f rest ;;
      Ok (y :: ys)
  end.

(** ** [get_projects] (lines 88-207) *)

(** Lines 124-137: the kind of the owner and its id, from the answer to the
    owner lookup. *)
Definition owner_type (owner : string) (result : pyval)
  : Py.result (string * pyval) :=
  organization <- get result "organization" PNone ;;
  if truthy organization then
    owner_id <- getitem2 result "organization" "id" ;;
    Ok ("organization", owner_id)
  else
    user <- get result "user" PNone ;;
    if truthy user then
      owner_id <- getitem2 result "user" "id" ;;
      Ok ("user", owner_id)
    else
      Raise (GitHubClientError
               ("Owner " ++ owner
                ++ " not found or type could not be determined.")).

Definition get_projects (owner : string) : io pyval :=
  result <~ execute_query "GetOwnerType" (dict [("login", PStr owner)]) ;;
  kind <~ pure (owner_type owner result) ;;
  if (fst kind =? "organization")%string then
    result <~ execute_query "GetOrgProjects"
                (dict [("login", PStr owner); ("first", PInt 50)]) ;;
    pure (projects <- require result "organization" "projectsV2"
                        ("Could not retrieve projects for organization "
                         ++ owner) ;;
          getitem projects "nodes")
  else if (fst kind =? "user")%string then
    result <~ execute_query "GetUserProjects"
                (dict [("login", PStr owner); ("first", PInt 50)]) ;;
    pure (projects <- require result "user" "projectsV2"
                        ("Could not retrieve projects for user " ++ owner) ;;
          getitem projects "nodes")
  else
    io_raise (GitHubClientError
                ("Unexpected error retrieving projects for " ++ owner)).

(** ** [get_project_node_id] (lines 209-255) *)

(** Lines 248-255: the project's node id from the answer to the lookup. *)
Definition project_id_of (owner : string) (project_number : Z)
    (result : pyval) : Py.result pyval :=
  no_org <- lacks result "organization" "projectV2" ;;
  if negb no_org then
    project <- getitem2 result "organization" "projectV2" ;;
    getitem project "id"
  else
    no_user <- lacks result "user" "projectV2" ;;
    if negb no_user then
      project <- getitem2 result "user" "projectV2" ;;
      getitem project "id"
    else
      Raise (GitHubClientError
               ("Project " ++ str_int project_number
                ++ " not found for owner " ++ owner ++ ".")).

Definition get_project_node_id (owner : string) (project_number : Z)
  : io pyval :=
  result <~ execute_query "GetProjectId"
              (dict [("login", PStr owner); ("number", PInt project_number)]) ;;
  pure (project_id_of owner project_number result).

(** ** [get_project_fields] (lines 257-335) *)

Definition project_ref (owner : string) (project_number : Z) : string :=
  owner ++ "/" ++ str_int project_number.

Definition get_project_fields (owner : string) (project_number : Z)
  : io pyval :=
  project_id <~ get_project_node_id owner project_number ;;
  result <~ execute_query "GetProjectFields"
              (dict [("projectId", project_id)]) ;;
  pure (fields <- require result "node" "fields"
                    ("Could not retrieve fields for project "
                     ++ project_ref owner project_number) ;;
        getitem fields "nodes").

(** ** [get_project_items] (lines 337-501) *)

(** [v == "..."] against a string literal. *)
Definition is_str (v : pyval) (s : string) : bool :=
  match v with
  | PStr s' => (s' =? s)%string
  | _ => false
  end.

(** One turn of the inner loop (lines 477-490): the key and the value that
    the field-value record [fv] contributes. *)
Definition field_value (fv : pyval) : Py.result (pyval * pyval) :=
  field <- get fv "field" (PDict []) ;;
  field_name <- get field "name" (PStr "UnknownField") ;;
  fv_type <- get fv "__typename" PNone ;;
  value <-
    (if is_str fv_type "ProjectV2ItemFieldTextValue" then
       get fv "text" (PStr "N/A")
     else if is_str fv_type "ProjectV2ItemFieldDateValue" then
       get fv "date" (PStr "N/A")
     else if is_str fv_type "ProjectV2ItemFieldSingleSelectValue" then
       get fv "name" (PStr "N/A")
     else if is_str fv_type "ProjectV2ItemFieldNumberValue" then
       get fv "number" (PStr "N/A")
     else if is_str fv_type "ProjectV2ItemFieldIterationValue" then
       title <- get fv "title" (PStr "N/A") ;;
       start_date <- get fv "startDate" (PStr "N/A") ;;
       Ok (PStr (str title ++ " (Start: " ++ str start_date ++ ")"))
     else Ok (PStr "N/A")) ;;
  Ok (field_name, value).

(** The inner loop: [processed_values[field_name] = value] for each record
    in turn. *)
Fixpoint processed_values (nodes : list pyval) (acc : pyval)
  : Py.result pyval :=
  match nodes with
  | [] => Ok acc
  | fv :: rest =>
      entry <- field_value fv ;;
      acc' <- setitem acc (fst entry) (snd entry) ;;
      processed_values rest acc'
  end.

(** One turn of the outer loop (lines 474-494) on [item]. *)
Definition process_item (item : pyval) : Py.result pyval :=
  skip <- lacks item "fieldValues" "nodes" ;;
  if (skip : bool) then Ok item
  else
    nodes <- getitem2 item "fieldValues" "nodes" ;;
    records <- iterate nodes ;;
    processed <- processed_values records (PDict []) ;;
    setitem item (PStr "fieldValues") processed.

(** The outer loop and [return items].  Only the elements of a list can be
    updated in place; over anything else the loop either visits nothing or
    raises at its first element. *)
Definition process_items (items : pyval) : Py.result pyval :=
  match items with
  | PList l =>
      l' <- for_each process_item l ;;
      Ok (PList l')
  | _ =>
      elements <- iterate items ;;
      _ <- for_each process_item elements ;;
      Ok items
  end.

Definition get_project_items (owner : string) (project_number limit : Z)
  : io pyval :=
  project_id <~ get_project_node_id owner project_number ;;
  result <~ execute_query "GetProjectItems"
              (dict [("projectId", project_id); ("first", PInt limit)]) ;;
  pure (items <- require result "node" "items"
                   ("Could not retrieve items for project "
                    ++ project_ref owner project_number) ;;
        items <- getitem items "nodes" ;;
        process_items items).

(** ** [create_issue] (lines 503-568) *)

Definition create_issue (owner repo title body : string) : io pyval :=
  repo_result <~ execute_query "GetRepositoryId"
                   (dict [("owner", PStr owner); ("name", PStr repo)]) ;;
  repository_id <~
    pure (repository <- get repo_result "repository" PNone ;;
          if negb (truthy repository) then
            Raise (GitHubClientError
                     ("Repository " ++ owner ++ "/" ++ repo ++ " not found"))
          else getitem2 repo_result "repository" "id") ;;
  result <~ execute_query "CreateIssue"
              (dict [("repositoryId", repository_id); ("title", PStr title);
                     ("body", PStr body)]) ;;
  pure (require result "createIssue" "issue"
          ("Failed to create issue in " ++ owner ++ "/" ++ repo)).

(** ** [add_issue_to_project] (lines 570-672) *)

Definition add_issue_to_project (owner : string) (project_number : Z)
    (issue_owner issue_repo : string) (issue_number : Z) : io pyval :=
  project_id <~ get_project_node_id owner project_number ;;
  issue_result <~ execute_query "GetIssueId"
                    (dict [("owner", PStr issue_owner);
                           ("repo", PStr issue_repo);
                           ("number", PInt issue_number)]) ;;
  issue_id <~
    pure (issue <- require issue_result "repository" "issue"
                     ("Issue " ++ str_int issue_number ++ " not found in "
                      ++ issue_owner ++ "/" ++ issue_repo) ;;
          getitem issue "id") ;;
  result <~ execute_query "AddItemToProject"
              (dict [("projectId", project_id); ("contentId", issue_id)]) ;;
  pure (require result "addProjectV2ItemById" "item"
          ("Failed to add issue " ++ str_int issue_number ++ " to project "
           ++ str_int project_number)).

(** ** [add_draft_issue_to_project] (lines 674-726) *)

Definition add_draft_issue_to_project (owner : string) (project_number : Z)
    (title body : string) : io pyval :=
  project_id <~ get_project_node_id owner project_number ;;
  result <~ execute_query "AddDraftIssueToProject"
              (dict [("projectId", project_id); ("title", PStr title);
                     ("body", PStr body)]) ;;
  pure (require result "addProjectV2DraftIssue" "projectItem"
          ("Failed to add draft issue to project "
           ++ str_int project_number)).

(** ** [update_project_item_field] (lines 728-839) *)

(** [s.startswith(prefix)] *)
Definition startswith (s prefix : string) : bool := String.prefix prefix s.

(** Lines 758-803: the mutation input, chosen by the prefix of the field id
    and checked against the type of the value. *)
Definition field_value_input (field_id : string) (value : pyval)
  : Py.result pyval :=
  if startswith field_id "PVTSSF_" then
    if isinstance_str value then
      Ok (dict [("singleSelectOptionId", value)])
    else
      Raise (GitHubClientError
               ("Invalid value type for single select field " ++ field_id
                ++ ". Expected option ID string."))
  else if startswith field_id "PVTIF_" then
    if isinstance_str value then
      Ok (dict [("iterationId", value)])
    else
      Raise (GitHubClientError
               ("Invalid value type for iteration field " ++ field_id
                ++ ". Expected iteration ID string."))
  else if startswith field_id "PVTF_" then
    if isinstance_str value then
      Ok (dict [("text", value)])
    else
      text <- str_of_value value ;;
      Ok (dict [("text", PStr text)])
  else if startswith field_id "PVTDF_" then
    if isinstance_str value then
      Ok (dict [("date", value)])
    else
      Raise (GitHubClientError
               ("Invalid value type for date field " ++ field_id
                ++ ". Expected date string (YYYY-MM-DD)."))
  else if startswith field_id "PVTNU_" then
    if isinstance_int_float value then
      number <- py_float value ;;
      Ok (dict [("number", PFloat number)])
    else
      Raise (GitHubClientError
               ("Invalid value type for number field " ++ field_id
                ++ ". Expected int or float."))
  else
    text <- str_of_value value ;;
    Ok (dict [("text", PStr text)]).

Definition update_project_item_field (owner : string) (project_number : Z)
    (item_id field_id : string) (value : pyval) : io pyval :=
  project_id <~ get_project_node_id owner project_number ;;
  input <~ pure (field_value_input field_id value) ;;
  result <~ execute_query "UpdateProjectFieldValue"
              (dict [("projectId", project_id); ("itemId", PStr item_id);
                     ("fieldId", PStr field_id); ("value", input)]) ;;
  pure (require result "updateProjectV2ItemFieldValue" "projectV2Item"
          ("Failed to update field value for item " ++ item_id)).

(** ** [delete_project_item] (lines 841-887) *)

Definition delete_project_item (owner : string) (project_number : Z)
    (item_id : string) : io pyval :=
  project_id <~ get_project_node_id owner project_number ;;
  result <~ execute_query "DeleteProjectItem"
              (dict [("projectId", project_id); ("itemId", PStr item_id)]) ;;
  pure (require result "deleteProjectV2Item" "deletedItemId"
          ("Failed to delete item " ++ item_id)).

(** ** [update_project_settings] (lines 889-957) *)

(** Lines 919-929: the input object, grown by one assignment for each
    setting that is not [None]. *)
Definition input_params (project_id : pyval) (title description : option string)
    (public : option bool) : pyval :=
  let params := [(PStr "projectId", project_id)] in
  let params := match title with
                | Some t => store (PStr "title") (PStr t) params
                | None => params
                end in
  let params := match description with
                | Some d => store (PStr "shortDescription") (PStr d) params
                | None => params
                end in
  let params := match public with
                | Some b => store (PStr "public") (PBool b) params
                | None => params
                end in
  PDict params.

Definition update_project_settings (owner : string) (project_number : Z)
    (title description : option string) (public : option bool) : io pyval :=
  project_id <~ get_project_node_id owner project_number ;;
  result <~ execute_query "UpdateProject"
              (dict [("input",
                      input_params project_id title description public)]) ;;
  pure (require result "updateProjectV2" "projectV2"
          ("Failed to update project " ++ str_int project_number)).

(** ** The operations as one family *)

(** A call of one of the client's public operations with its arguments. *)
Inductive call : Type :=
| GetProjects (owner : string)
| GetProjectNodeId (owner : string) (project_number : Z)
| GetProjectFields (owner : string) (project_number : Z)
| GetProjectItems (owner : string) (project_number limit : Z)
| CreateIssue (owner repo title body : string)
| AddIssueToProject (owner : string) (project_number : Z)
    (issue_owner issue_repo : string) (issue_number : Z)
| AddDraftIssueToProject (owner : string) (project_number : Z)
    (title body : string)
| UpdateProjectItemField (owner : string) (project_number : Z)
    (item_id field_id : string) (value : pyval)
| DeleteProjectItem (owner : string) (project_number : Z) (item_id : string)
| UpdateProjectSettings (owner : string) (project_number : Z)
    (title description : option string) (public : option bool).

Definition invoke (c : call) : io pyval :=
  match c with
  | GetProjects owner => get_projects owner
  | GetProjectNodeId owner n => get_project_node_id owner n
  | GetProjectFields owner n => get_project_fields owner n
  | GetProjectItems owner n limit => get_project_items owner n limit
  | CreateIssue owner repo title body => create_issue owner repo title body
  | AddIssueToProject owner n io ir i => add_issue_to_project owner n io ir i
  | AddDraftIssueToProject owner n title body =>
      add_draft_issue_to_project owner n title body
  | UpdateProjectItemField owner n item field value =>
      update_project_item_field owner n item field value
  | DeleteProjectItem owner n item => delete_project_item owner n item
  | UpdateProjectSettings owner n title description public =>
      update_project_settings owner n title description public
  end.

End Client.
End GitHubClient.

(* ================================================================== *)
(** * Sample runtimes and remotes                                       *)
(* ================================================================== *)

Module Examples.
Import Py GitHubClient.

(** A stand-in for the interpreter's [repr] and error wording. *)
Definition repr0 (v : pyval) : string := "<value>".
Definition text0 (e : exn) : string := "<builtin error>".

(** The successful answer to a project lookup for a user-owned project. *)
Definition project_found : pyval :=
  dict [("data",
         dict [("organization", PNone);
               ("user", dict [("projectV2", dict [("id", PStr "P1")])])])].

(** A remote that knows project [P1] and reports errors for every other
    request. *)
Definition remote_lookup_only (log : list request) (r : request)
  : http_outcome :=
  if (query r =? "GetProjectId")%string then Body project_found
  else Body (dict [("errors", PList [PStr "unsupported"])]).

(** A remote that is unreachable. *)
Definition remote_down (log : list request) (r : request) : http_outcome :=
  OtherException "connection refused".

Definition roadmap : pyval :=
  dict [("id", PStr "P1"); ("number", PInt 1); ("title", PStr "Roadmap");
        ("shortDescription", PNone); ("url", PStr "https://x");
        ("closed", PBool false); ("public", PBool true)].

(** Two items: one without field values, one with an iteration value and a
    value of a type the query has no fragment for. *)
Definition two_items : pyval :=
  PList
    [dict [("id", PStr "I1"); ("fieldValues", dict [("nodes", PList [])])];
     dict [("id", PStr "I2");
           ("fieldValues",
            dict [("nodes",
                   PList
                     [dict [("__typename",
                             PStr "ProjectV2ItemFieldIterationValue");
                            ("title", PStr "Sprint 4");
                            ("startDate", PStr "2025-01-01");
                            ("duration", PInt 14);
                            ("field", dict [("name", PStr "Iteration")])];
                      dict []])])]].

(** The user [acme] with one project and two items; the remote accepts the
    deletion of an item and any change of the project's settings. *)
Definition remote_acme (log : list request) (r : request) : http_outcome :=
  if (query r =? "GetOwnerType")%string then
    Body (dict [("data",
                 dict [("organization", PNone);
                       ("user", dict [("id", PStr "U1");
                                      ("login", PStr "acme");
                                      ("__typename", PStr "User")])])])
  else if (query r =? "GetUserProjects")%string then
    Body (dict [("data",
                 dict [("user",
                        dict [("projectsV2",
                               dict [("nodes", PList [roadmap])])])])])
  else if (query r =? "GetProjectId")%string then Body project_found
  else if (query r =? "GetProjectItems")%string then
    Body (dict [("data",
                 dict [("node",
                        dict [("items", dict [("nodes", two_items)])])])])
  else if (query r =? "DeleteProjectItem")%string then
    Body (dict [("data",
                 dict [("deleteProjectV2Item",
                        dict [("deletedItemId", PStr "I1")])])])
  else if (query r =? "UpdateProject")%string then
    Body (dict [("data",
                 dict [("updateProjectV2", dict [("projectV2", roadmap)])])])
  else Body (dict [("errors", PList [PStr "unsupported"])]).

(** The organization [initech] without projects; a deletion is answered
    with a null payload. *)
Definition remote_initech (log : list request) (r : request) : http_outcome :=
  if (query r =? "GetOwnerType")%string then
    Body (dict [("data",
                 dict [("organization", dict [("id", PStr "O1");
                                              ("login", PStr "initech");
                                              ("__typename",
                                               PStr "Organization")]);
                       ("user", PNone)])])
  else if (query r =? "GetOrgProjects")%string then
    Body (dict [("data",
                 dict [("organization",
                        dict [("projectsV2", dict [("nodes", PList [])])])])])
  else if (query r =? "GetProjectId")%string then Body project_found
  else if (query r =? "DeleteProjectItem")%string then
    Body (dict [("data", dict [("deleteProjectV2Item", PNone)])])
  else Body (dict [("errors", PList [PStr "unsupported"])]).

(** As [remote_lookup_only], and a draft issue is added as item [PVTI_9]. *)
Definition remote_drafts (log : list request) (r : request) : http_outcome :=
  if (query r =? "GetProjectId")%string then Body project_found
  else if (query r =? "AddDraftIssueToProject")%string then
    Body (dict [("data",
                 dict [("addProjectV2DraftIssue",
                        dict [("projectItem",
                               dict [("id", PStr "PVTI_9")])])])])
  else Body (dict [("errors", PList [PStr "unsupported"])]).

(** As [remote_lookup_only], with an items page whose only node is null. *)
Definition remote_null_item (log : list request) (r : request)
  : http_outcome :=
  if (query r =? "GetProjectId")%string then Body project_found
  else if (query r =? "GetProjectItems")%string then
    Body (dict [("data",
                 dict [("node",
                        dict [("items", dict [("nodes", PList [PNone])])])])])
  else Body (dict [("errors", PList [PStr "unsupported"])]).

End Examples.

(* ================================================================== *)
(** * Vocabulary of the properties                                     *)
(* ================================================================== *)

Import Py GitHubClient.

(** ** Failures and numbers *)

(** The failure raised for a value of the wrong type: the message names the
    kind of field, the field id and the expected type. *)
Definition InvalidInput (kind field_id expected : string) : exn :=
  GitHubClientError
    ("Invalid value type for " ++ kind ++ " field " ++ field_id
     ++ ". Expected " ++ expected ++ ".").

(** The value is of the wrong type for the prefix of the field id.  The
    text prefix takes every value. *)
Definition wrong_type (field_id : string) (value : pyval) : bool :=
  (startswith field_id "PVTSSF_" && negb (isinstance_str value))
  || (startswith field_id "PVTIF_" && negb (isinstance_str value))
  || (startswith field_id "PVTDF_" && negb (isinstance_str value))
  || (startswith field_id "PVTNU_" && negb (isinstance_int_float value)).

(** The doubles 1.0 and 0.0. *)
Definition float_one : spec_float := S754_finite false 4503599627370496 (-52).

Definition float_zero : spec_float := S754_zero false.

(** ** Members of a parsed answer *)

(** A member that a dictionary does not have, or has as [None]. *)
Definition null_or_missing (k : string) (entries : list (pyval * pyval))
  : Prop :=
  lookup (PStr k) entries = None \/ lookup (PStr k) entries = Some PNone.

(** The nested member [a.b] is absent: [a] is null or missing, or it is an
    object in which [b] is null or missing. *)
Definition absent (a b : string) (entries : list (pyval * pyval)) : Prop :=
  null_or_missing a entries
  \/ exists wrapper, lookup (PStr a) entries = Some (PDict wrapper)
                     /\ null_or_missing b wrapper.

(** A member of a dictionary, or a default when it has none. *)
Definition member_or (k : string) (entries : list (pyval * pyval))
    (default : pyval) : pyval :=
  match lookup (PStr k) entries with
  | Some v => v
  | None => default
  end.

(** ** Requests and operations *)

(** The request of the dedicated project lookup. *)
Definition project_lookup (owner : string) (project_number : Z) : request :=
  Request "GetProjectId"
          (dict [("login", PStr owner); ("number", PInt project_number)]).

Definition owner_lookup (owner : string) : request :=
  Request "GetOwnerType" (dict [("login", PStr owner)]).

(** The lookups of a repository and of an issue. *)
Definition repository_lookup (owner repo : string) : request :=
  Request "GetRepositoryId" (dict [("owner", PStr owner); ("name", PStr repo)]).

Definition issue_lookup (issue_owner issue_repo : string) (issue_number : Z)
  : request :=
  Request "GetIssueId"
          (dict [("owner", PStr issue_owner); ("repo", PStr issue_repo);
                 ("number", PInt issue_number)]).

(** The update request for a value input. *)
Definition field_update (project_id : pyval) (item_id field_id : string)
    (input : pyval) : request :=
  Request "UpdateProjectFieldValue"
          (dict [("projectId", project_id); ("itemId", PStr item_id);
                 ("fieldId", PStr field_id); ("value", input)]).

(** The one page of projects asked of an organization or of a user. *)
Definition projects_fetch (kind owner : string) : request :=
  Request (if (kind =? "organization")%string then "GetOrgProjects"
           else "GetUserProjects")
          (dict [("login", PStr owner); ("first", PInt 50)]).

(** The project an operation works on, for the operations that work on one:
    listing fields and items, adding an issue or a draft, updating a field,
    deleting an item, updating the settings. *)
Definition project_scope (c : call) : option (string * Z) :=
  match c with
  | GetProjectFields owner n
  | GetProjectItems owner n _
  | AddIssueToProject owner n _ _ _
  | AddDraftIssueToProject owner n _ _
  | UpdateProjectItemField owner n _ _ _
  | DeleteProjectItem owner n _
  | UpdateProjectSettings owner n _ _ _ => Some (owner, n)
  | GetProjects _ | GetProjectNodeId _ _ | CreateIssue _ _ _ _ => None
  end.

(** What a mutating operation sends and expects: the mutation document, the
    two keys under which the answer nests its payload, and the message of
    the failure raised when the payload is not there. *)
Record mutation : Type :=
  Mutation { document : string; outer : string; inner : string;
             failure : string }.

Definition mutation_of (c : call) : option mutation :=
  match c with
  | CreateIssue owner repo _ _ =>
      Some (Mutation "CreateIssue" "createIssue" "issue"
              ("Failed to create issue in " ++ owner ++ "/" ++ repo))
  | AddIssueToProject _ n _ _ issue_number =>
      Some (Mutation "AddItemToProject" "addProjectV2ItemById" "item"
              ("Failed to add issue " ++ str_int issue_number
               ++ " to project " ++ str_int n))
  | AddDraftIssueToProject _ n _ _ =>
      Some (Mutation "AddDraftIssueToProject" "addProjectV2DraftIssue"
              "projectItem"
              ("Failed to add draft issue to project " ++ str_int n))
  | UpdateProjectItemField _ _ item_id _ _ =>
      Some (Mutation "UpdateProjectFieldValue" "updateProjectV2ItemFieldValue"
              "projectV2Item"
              ("Failed to update field value for item " ++ item_id))
  | DeleteProjectItem _ _ item_id =>
      Some (Mutation "DeleteProjectItem" "deleteProjectV2Item" "deletedItemId"
              ("Failed to delete item " ++ item_id))
  | UpdateProjectSettings _ n _ _ _ =>
      Some (Mutation "UpdateProject" "updateProjectV2" "projectV2"
              ("Failed to update project " ++ str_int n))
  | GetProjects _ | GetProjectNodeId _ _ | GetProjectFields _ _
  | GetProjectItems _ _ _ => None
  end.

(** The entry a setting contributes to the input object: one entry when it
    was supplied, none when it was left out. *)
Definition supplied (key : string) (setting : option pyval)
  : list (pyval * pyval) :=
  match setting with
  | Some v => [(PStr key, v)]
  | None => []
  end.

(** ** Field values *)

(** The discriminators the item query has a fragment for. *)
Definition recognized : list string :=
  ["ProjectV2ItemFieldTextValue"; "ProjectV2ItemFieldDateValue";
   "ProjectV2ItemFieldSingleSelectValue"; "ProjectV2ItemFieldNumberValue";
   "ProjectV2ItemFieldIterationValue"].

(** The value under which a name ends up: that of the last record bearing
    the name. *)
Fixpoint last_value (repr : pyval -> string) (k : string)
    (records : list pyval) : option pyval :=
  match records with
  | [] => None
  | fv :: rest =>
      match last_value repr k rest with
      | Some v => Some v
      | None =>
          match field_value repr fv with
          | Ok (name, v) => if key_eqb name (PStr k) then Some v else None
          | Raise _ => None
          end
      end
  end.

(** ** Outcomes of a query execution *)

(** The three ways in which a query execution fails. *)
Definition transport_failure (outcome : http_outcome) : Prop :=
  match outcome with
  | HTTPStatusError _ _ | OtherException _ => True
  | Body _ => False
  end.

Definition reports_errors (outcome : http_outcome) : Prop :=
  exists entries errors,
    outcome = Body (PDict entries)
    /\ lookup (PStr "errors") entries = Some errors.

(** A body that carries no data: an object without errors whose data member
    is null or missing, or a body that is not an object at all. *)
Definition data_missing (outcome : http_outcome) : Prop :=
  exists result,
    outcome = Body result
    /\ match result with
       | PDict entries =>
           lookup (PStr "errors") entries = None
           /\ null_or_missing "data" entries
       | _ => True
       end.

(* ================================================================== *)
(** * Properties                                                        *)
(* ================================================================== *)

#[local] Arguments truthy : simpl never.
#[local] Arguments lookup : simpl never.

(** ** Reading a nested member *)

Lemma lookup_nonempty (k : pyval) (entries : list (pyval * pyval)) (v : pyval) :
  lookup k entries = Some v -> truthy (PDict entries) = true.
Proof. destruct entries; simpl; [discriminate | reflexivity]. Qed.

Lemma lookup_cons (k k0 v0 : pyval) (rest : list (pyval * pyval)) :
  lookup k ((k0, v0) :: rest)
  = if key_eqb k0 k then Some v0 else lookup k rest.
Proof. reflexivity. Qed.

Lemma key_eqb_str (k : pyval) (s : string) :
  key_eqb k (PStr s) = true -> k = PStr s.
Proof.
  destruct k; cbn; try discriminate.
  intros H; apply String.eqb_eq in H; congruence.
Qed.

Lemma lookup_store_str (s : string) (k v : pyval)
    (entries : list (pyval * pyval)) :
  lookup (PStr s) (store k v entries)
  = if key_eqb k (PStr s) then Some v else lookup (PStr s) entries.
Proof.
  induction entries as [|[k0 v0] rest IH]; cbn [store].
  - rewrite lookup_cons; reflexivity.
  - destruct (key_eqb k0 k) eqn:E0; rewrite !lookup_cons.
    + destruct (key_eqb k0 (PStr s)) eqn:E1.
      * apply key_eqb_str in E1; subst k0.
        destruct k; cbn in E0; try discriminate.
        cbn; rewrite String.eqb_sym, E0; reflexivity.
      * destruct (key_eqb k (PStr s)) eqn:E2; [|reflexivity].
        apply key_eqb_str in E2; subst k.
        destruct k0; cbn in E0, E1; try discriminate.
        congruence.
    + destruct (key_eqb k0 (PStr s)) eqn:E1; [|exact IH].
      apply key_eqb_str in E1; subst k0.
      destruct (key_eqb k (PStr s)) eqn:E2; [|reflexivity].
      apply key_eqb_str in E2; subst k.
      cbn in E0; rewrite String.eqb_refl in E0; discriminate.
Qed.

Lemma get_member_or (k : string) (entries : list (pyval * pyval))
    (default : pyval) :
  get (PDict entries) k default = Ok (member_or k entries default).
Proof. unfold get, member_or; destruct (lookup _ _); reflexivity. Qed.

Lemma lacks_absent (a b : string) (entries : list (pyval * pyval)) :
  absent a b entries -> lacks (PDict entries) a b = Ok true.
Proof.
  unfold lacks, get, getitem.
  intros [[H | H] | (wrapper & H & [Hb | Hb])]; rewrite H; simpl;
    try reflexivity.
  - destruct (truthy (PDict wrapper)); simpl; [|reflexivity].
    rewrite Hb; reflexivity.
  - rewrite (lookup_nonempty _ _ _ Hb); simpl; rewrite Hb; reflexivity.
Qed.

Lemma lacks_present (a b : string) (entries wrapper : list (pyval * pyval))
    (p : pyval) :
  lookup (PStr a) entries = Some (PDict wrapper) ->
  lookup (PStr b) wrapper = Some p ->
  lacks (PDict entries) a b = Ok (negb (truthy p))
  /\ getitem2 (PDict entries) a b = Ok p.
Proof.
  intros Ha Hb; unfold lacks, getitem2, get, getitem.
  rewrite Ha; simpl.
  rewrite (lookup_nonempty _ _ _ Hb); simpl; rewrite Hb; auto.
Qed.

Lemma require_absent (a b msg : string) (entries : list (pyval * pyval)) :
  absent a b entries ->
  require (PDict entries) a b msg = Raise (GitHubClientError msg).
Proof.
  intros H; unfold require; rewrite (lacks_absent _ _ _ H); reflexivity.
Qed.

Lemma require_present (a b msg : string)
    (entries wrapper : list (pyval * pyval)) (p : pyval) :
  lookup (PStr a) entries = Some (PDict wrapper) ->
  lookup (PStr b) wrapper = Some p ->
  truthy p = true ->
  require (PDict entries) a b msg = Ok p.
Proof.
  intros Ha Hb Hp; destruct (lacks_present _ _ _ _ _ Ha Hb) as (Hl & Hg).
  unfold require; rewrite Hl, Hp; simpl; exact Hg.
Qed.

Lemma require_falsy (a b msg : string)
    (entries wrapper : list (pyval * pyval)) (p : pyval) :
  lookup (PStr a) entries = Some (PDict wrapper) ->
  lookup (PStr b) wrapper = Some p ->
  truthy p = false ->
  require (PDict entries) a b msg = Raise (GitHubClientError msg).
Proof.
  intros Ha Hb Hp; destruct (lacks_present _ _ _ _ _ Ha Hb) as (Hl & _).
  unfold require; rewrite Hl, Hp; reflexivity.
Qed.

(** ** Mutation input inference *)

Lemma prefix_String (a : ascii) (p s : string) :
  String.prefix (String a p) s = true ->
  exists s', s = String a s' /\ String.prefix p s' = true.
Proof.
  destruct s as [|b s']; simpl; [discriminate|].
  destruct (ascii_dec a b) as [->|]; [eauto | discriminate].
Qed.

Ltac peel H :=
  let s := fresh "s" in
  apply prefix_String in H; destruct H as (s & -> & H).

(** No identifier starts with two of the five prefixes: they part ways at
    the fourth character. *)
Lemma startswith_iteration (s : string) :
  startswith s "PVTIF_" = true -> startswith s "PVTSSF_" = false.
Proof. unfold startswith; intros H; do 4 peel H; reflexivity. Qed.

Lemma startswith_text (s : string) :
  startswith s "PVTF_" = true ->
  startswith s "PVTSSF_" = false /\ startswith s "PVTIF_" = false.
Proof. unfold startswith; intros H; do 4 peel H; split; reflexivity. Qed.

Lemma startswith_date (s : string) :
  startswith s "PVTDF_" = true ->
  startswith s "PVTSSF_" = false /\ startswith s "PVTIF_" = false
  /\ startswith s "PVTF_" = false.
Proof. unfold startswith; intros H; do 4 peel H; repeat split; reflexivity. Qed.

Lemma startswith_number (s : string) :
  startswith s "PVTNU_" = true ->
  startswith s "PVTSSF_" = false /\ startswith s "PVTIF_" = false
  /\ startswith s "PVTF_" = false /\ startswith s "PVTDF_" = false.
Proof. unfold startswith; intros H; do 4 peel H; repeat split; reflexivity. Qed.

Lemma str_of_string (repr : pyval -> string) (v : pyval) :
  isinstance_str v = true -> v = PStr (str repr v).
Proof. destruct v; simpl; intros H; try discriminate; reflexivity. Qed.

Lemma renders_string (v : pyval) : isinstance_str v = true -> renders v = true.
Proof. destruct v; cbn; intros H; try discriminate; reflexivity. Qed.

(** C1, as the code has it.  The mutation input of
    [update_project_item_field] is decided by the prefix of the field id:
    the single-select, iteration and date prefixes want a string and wrap it
    under their own key, and raise the invalid-type failure for anything
    else; the text prefix and every id without a known prefix give
    [{text: str(value)}] for each value that [str] converts, raise the
    [ValueError] of the conversion for a value that holds an integer beyond
    the limit on digits, and never raise the invalid-type failure; the
    number prefix wants an int or a float, gives [{number: float(value)}]
    for each one that [float] converts, and raises the invalid-type failure
    for anything that is neither an int nor a float. *)
Theorem field_value_input_by_prefix :
  forall (repr : pyval -> string) (field_id : string) (value : pyval),
    let input := field_value_input repr field_id value in
    (startswith field_id "PVTSSF_" = true ->
       (isinstance_str value = true ->
          input = Ok (dict [("singleSelectOptionId", value)]))
       /\ (isinstance_str value = false ->
          input = Raise (InvalidInput "single select" field_id
                                      "option ID string")))
    /\ (startswith field_id "PVTIF_" = true ->
       (isinstance_str value = true ->
          input = Ok (dict [("iterationId", value)]))
       /\ (isinstance_str value = false ->
          input = Raise (InvalidInput "iteration" field_id
                                      "iteration ID string")))
    /\ (startswith field_id "PVTF_" = true ->
       (renders value = true ->
          input = Ok (dict [("text", PStr (str repr value))]))
       /\ (renders value = false -> input = Raise ValueError))
    /\ (startswith field_id "PVTDF_" = true ->
       (isinstance_str value = true -> input = Ok (dict [("date", value)]))
       /\ (isinstance_str value = false ->
          input = Raise (InvalidInput "date" field_id
                                      "date string (YYYY-MM-DD)")))
    /\ (startswith field_id "PVTNU_" = true ->
       (isinstance_int_float value = true ->
          forall x, py_float value = Ok x ->
                    input = Ok (dict [("number", PFloat x)]))
       /\ (isinstance_int_float value = false ->
          input = Raise (InvalidInput "number" field_id "int or float")))
    /\ (startswith field_id "PVTSSF_" = false ->
        startswith field_id "PVTIF_" = false ->
        startswith field_id "PVTF_" = false ->
        startswith field_id "PVTDF_" = false ->
        startswith field_id "PVTNU_" = false ->
        (renders value = true ->
           input = Ok (dict [("text", PStr (str repr value))]))
        /\ (renders value = false -> input = Raise ValueError)).
Proof.
  intros repr field_id value input; subst input; unfold field_value_input.
  split; [|split; [|split; [|split; [|split]]]].
  - intros H; rewrite H.
    split; intros Hs; rewrite Hs; reflexivity.
  - intros H; rewrite (startswith_iteration _ H), H.
    split; intros Hs; rewrite Hs; reflexivity.
  - intros H; destruct (startswith_text _ H) as (H1 & H2).
    rewrite H1, H2, H; unfold str_of_value.
    destruct (isinstance_str value) eqn:Hs.
    + rewrite (renders_string _ Hs); split; [intros _|discriminate].
      rewrite <- (str_of_string repr value Hs); reflexivity.
    + split; intros Hr; rewrite Hr; reflexivity.
  - intros H; destruct (startswith_date _ H) as (H1 & H2 & H3).
    rewrite H1, H2, H3, H.
    split; intros Hs; rewrite Hs; reflexivity.
  - intros H; destruct (startswith_number _ H) as (H1 & H2 & H3 & H4).
    rewrite H1, H2, H3, H4, H.
    split; [intros Hn x Hx; rewrite Hn, Hx | intros Hn; rewrite Hn];
      reflexivity.
  - intros H1 H2 H3 H4 H5; rewrite H1, H2, H3, H4, H5; unfold str_of_value.
    split; intros Hr; rewrite Hr; reflexivity.
Qed.

(** One input for each clause; the double 42.0 is 5910974510923776 * 2^-47. *)
Lemma field_value_input_by_prefix_witness :
  field_value_input Examples.repr0 "PVTSSF_1" (PStr "opt")
  = Ok (dict [("singleSelectOptionId", PStr "opt")])
  /\ field_value_input Examples.repr0 "PVTIF_1" (PInt 3)
     = Raise (InvalidInput "iteration" "PVTIF_1" "iteration ID string")
  /\ field_value_input Examples.repr0 "PVTF_1" (PInt 3)
     = Ok (dict [("text", PStr "3")])
  /\ field_value_input Examples.repr0 "PVTDF_1" (PStr "2025-01-01")
     = Ok (dict [("date", PStr "2025-01-01")])
  /\ field_value_input Examples.repr0 "PVTNU_1" (PInt 42)
     = Ok (dict [("number", PFloat (S754_finite false 5910974510923776 (-47)))])
  /\ field_value_input Examples.repr0 "Status" PNone
     = Ok (dict [("text", PStr "None")]).
Proof.
  pose proof (field_value_input_by_prefix Examples.repr0) as T.
  cbv zeta in T.
  split; [|split; [|split; [|split; [|split]]]].
  - destruct (T "PVTSSF_1" (PStr "opt")) as (H & _).
    apply H; reflexivity.
  - destruct (T "PVTIF_1" (PInt 3)) as (_ & H & _).
    apply H; reflexivity.
  - destruct (T "PVTF_1" (PInt 3)) as (_ & _ & H & _).
    apply (proj1 (H eq_refl)); reflexivity.
  - destruct (T "PVTDF_1" (PStr "2025-01-01")) as (_ & _ & _ & H & _).
    apply H; reflexivity.
  - destruct (T "PVTNU_1" (PInt 42)) as (_ & _ & _ & _ & H & _).
    apply H; reflexivity.
  - destruct (T "Status" PNone) as (_ & _ & _ & _ & _ & H).
    apply (proj1 (H eq_refl eq_refl eq_refl eq_refl eq_refl)); reflexivity.
Defined.

Lemma float_one_zero_denote :
  float_integral float_one = Some 1 /\ float_integral float_zero = Some 0.
Proof. split; reflexivity. Qed.

(** [float] never fails on a bool or on a float. *)
Lemma py_float_bool_float (b : bool) (x : spec_float) :
  py_float (PBool b) = Ok (if b then float_one else float_zero)
  /\ py_float (PFloat x) = Ok x.
Proof. split; [destruct b|]; reflexivity. Qed.

(** C10.  On a field id with the number prefix a boolean value passes the
    int-or-float test, so it is not rejected: [True] is sent as the number
    1.0 and [False] as 0.0. *)
Theorem number_field_accepts_bool :
  forall (repr : pyval -> string) (field_id : string) (b : bool),
    startswith field_id "PVTNU_" = true ->
    isinstance_int_float (PBool b) = true
    /\ field_value_input repr field_id (PBool b)
       = Ok (dict [("number", PFloat (if b then float_one else float_zero))]).
Proof.
  intros repr field_id b H; split; [reflexivity|].
  destruct (startswith_number _ H) as (H1 & H2 & H3 & H4).
  unfold field_value_input; rewrite H1, H2, H3, H4, H.
  destruct b; reflexivity.
Qed.

Lemma number_field_accepts_bool_witness :
  field_value_input Examples.repr0 "PVTNU_lAHOA" (PBool true)
  = Ok (dict [("number", PFloat float_one)]).
Proof.
  apply (number_field_accepts_bool Examples.repr0 "PVTNU_lAHOA" true).
  reflexivity.
Defined.

Lemma wrong_type_rejected (repr : pyval -> string) (field_id : string)
    (value : pyval) :
  wrong_type field_id value = true ->
  exists kind expected,
    field_value_input repr field_id value
    = Raise (InvalidInput kind field_id expected).
Proof.
  unfold wrong_type; intros H.
  repeat (apply orb_true_iff in H; destruct H as [H | H]);
    apply andb_true_iff in H; destruct H as (Hp & Hv);
    apply negb_true_iff in Hv; unfold field_value_input.
  - rewrite Hp, Hv.
    exists "single select", "option ID string"; reflexivity.
  - rewrite (startswith_iteration _ Hp), Hp, Hv.
    exists "iteration", "iteration ID string"; reflexivity.
  - destruct (startswith_date _ Hp) as (H1 & H2 & H3).
    rewrite H1, H2, H3, Hp, Hv.
    exists "date", "date string (YYYY-MM-DD)"; reflexivity.
  - destruct (startswith_number _ Hp) as (H1 & H2 & H3 & H4).
    rewrite H1, H2, H3, H4, Hp, Hv.
    exists "number", "int or float"; reflexivity.
Qed.

(** ** Owner kind *)

Lemma owner_type_kind (owner : string) (result : pyval) (kind : string)
    (id : pyval) :
  owner_type owner result = Ok (kind, id) ->
  kind = "organization" \/ kind = "user".
Proof.
  unfold owner_type; intros H.
  destruct (get result "organization" PNone) as [org|]; [|discriminate].
  cbn [bind] in H.
  destruct (truthy org).
  - destruct (getitem2 result "organization" "id"); [|discriminate].
    injection H as <- _; auto.
  - destruct (get result "user" PNone) as [usr|]; [|discriminate].
    cbn [bind] in H.
    destruct (truthy usr); [|discriminate].
    destruct (getitem2 result "user" "id"); [|discriminate].
    injection H as <- _; auto.
Qed.

(** C3.  The kind of an owner is read off the answer to the owner lookup in
    this order: an organization branch that is not null makes the owner an
    organization, with the organization's id, whatever the user branch
    holds; failing that, a user branch that is not null makes it a user,
    with the user's id; with both branches null the not-found failure is
    raised. *)
Theorem owner_type_decision :
  forall (owner : string) (entries : list (pyval * pyval)),
    (forall (organization : list (pyval * pyval)) (id : pyval),
        lookup (PStr "organization") entries = Some (PDict organization) ->
        lookup (PStr "id") organization = Some id ->
        owner_type owner (PDict entries) = Ok ("organization", id))
    /\ (forall (user : list (pyval * pyval)) (id : pyval),
           null_or_missing "organization" entries ->
           lookup (PStr "user") entries = Some (PDict user) ->
           lookup (PStr "id") user = Some id ->
           owner_type owner (PDict entries) = Ok ("user", id))
    /\ (null_or_missing "organization" entries ->
        null_or_missing "user" entries ->
        owner_type owner (PDict entries)
        = Raise (GitHubClientError
                   ("Owner " ++ owner
                    ++ " not found or type could not be determined."))).
Proof.
  intros owner entries; unfold owner_type, getitem2, get, getitem.
  split; [|split].
  - intros organization id Ho Hi; rewrite Ho; cbn [bind].
    rewrite (lookup_nonempty _ _ _ Hi), Hi; reflexivity.
  - intros user id [Ho | Ho] Hu Hi; rewrite Ho, Hu; cbn [bind];
      rewrite (lookup_nonempty _ _ _ Hi), Hi; reflexivity.
  - intros [Ho | Ho] [Hu | Hu]; rewrite Ho, Hu; reflexivity.
Qed.

Lemma owner_type_decision_witness :
  owner_type "acme"
    (dict [("organization", dict [("id", PStr "O1")]);
           ("user", dict [("id", PStr "U1")])])
  = Ok ("organization", PStr "O1")
  /\ owner_type "acme"
       (dict [("organization", PNone); ("user", dict [("id", PStr "U1")])])
     = Ok ("user", PStr "U1")
  /\ owner_type "acme" (dict [("organization", PNone); ("user", PNone)])
     = Raise (GitHubClientError
                "Owner acme not found or type could not be determined.").
Proof.
  split; [|split].
  - eapply (proj1 (owner_type_decision "acme" _)); reflexivity.
  - eapply (proj1 (proj2 (owner_type_decision "acme" _)));
      [right; reflexivity | reflexivity | reflexivity].
  - apply (proj2 (proj2 (owner_type_decision "acme" _)));
      right; reflexivity.
Defined.

(** ** Field value normalization *)

(** X6.  What one field-value record contributes: the key is the name of
    its own field reference, or the unknown-field name when the reference
    has none; the value is picked by the record's own discriminator. *)
Lemma field_value_by_discriminator (repr : pyval -> string)
    (entries field : list (pyval * pyval)) :
  member_or "field" entries (PDict []) = PDict field ->
  let name := member_or "name" field (PStr "UnknownField") in
  let tag := member_or "__typename" entries PNone in
  let scalar k := member_or k entries (PStr "N/A") in
  (tag = PStr "ProjectV2ItemFieldTextValue" ->
     field_value repr (PDict entries) = Ok (name, scalar "text"))
  /\ (tag = PStr "ProjectV2ItemFieldDateValue" ->
     field_value repr (PDict entries) = Ok (name, scalar "date"))
  /\ (tag = PStr "ProjectV2ItemFieldSingleSelectValue" ->
     field_value repr (PDict entries) = Ok (name, scalar "name"))
  /\ (tag = PStr "ProjectV2ItemFieldNumberValue" ->
     field_value repr (PDict entries) = Ok (name, scalar "number"))
  /\ (tag = PStr "ProjectV2ItemFieldIterationValue" ->
     field_value repr (PDict entries)
     = Ok (name, PStr (str repr (scalar "title") ++ " (Start: "
                       ++ str repr (scalar "startDate") ++ ")")))
  /\ ((forall s, In s recognized -> tag <> PStr s) ->
     field_value repr (PDict entries) = Ok (name, PStr "N/A")).
Proof.
  intros Hf name tag scalar; subst name tag scalar.
  unfold field_value; rewrite !get_member_or, Hf; cbn [bind].
  rewrite !get_member_or; cbn [bind].
  repeat match goal with |- _ /\ _ => split end;
    try (intros ->; cbn [is_str String.eqb Ascii.eqb Bool.eqb];
         rewrite ?get_member_or; reflexivity).
  intros Hn.
  destruct (member_or "__typename" entries PNone) as [| | | |s| |];
    try reflexivity.
  cbn [is_str].
  repeat match goal with
         | |- context [(s =? ?lit)%string] =>
             destruct (String.eqb_spec s lit) as [->|_];
             [exfalso; apply (Hn lit); [cbn; tauto | reflexivity]|]
         end.
  reflexivity.
Qed.

(** The mapping built from the records of an item: under each name stands
    the value of the last record with that name. *)
Lemma processed_values_last_wins (repr : pyval -> string)
    (records : list pyval) :
  forall (acc : list (pyval * pyval)) (mapping : pyval),
    processed_values repr records (PDict acc) = Ok mapping ->
    exists d, mapping = PDict d
              /\ forall k, lookup (PStr k) d
                           = match last_value repr k records with
                             | Some v => Some v
                             | None => lookup (PStr k) acc
                             end.
Proof.
  induction records as [|fv rest IH]; intros acc mapping H.
  - injection H as <-; exists acc; auto.
  - cbn [processed_values last_value] in *.
    destruct (field_value repr fv) as [[name v]|]; [|discriminate].
    cbn [bind fst snd setitem] in H.
    destruct (hashable name); [|discriminate].
    cbn [bind] in H.
    destruct (IH _ _ H) as (d & -> & Hd).
    exists d; split; [reflexivity|].
    intros k; rewrite Hd, lookup_store_str.
    destruct (last_value repr k rest); [reflexivity|].
    destruct (key_eqb name (PStr k)); reflexivity.
Qed.

(** An item with at least one record has its field values replaced by the
    mapping; an item whose list of records is empty is left as it is. *)
Lemma process_item_nodes (repr : pyval -> string)
    (entries values : list (pyval * pyval)) (records : list pyval) :
  lookup (PStr "fieldValues") entries = Some (PDict values) ->
  lookup (PStr "nodes") values = Some (PList records) ->
  process_item repr (PDict entries)
  = match records with
    | [] => Ok (PDict entries)
    | _ :: _ =>
        mapping <- processed_values repr records (PDict []) ;;
        Ok (PDict (store (PStr "fieldValues") mapping entries))
    end.
Proof.
  intros Hv Hn; unfold process_item.
  destruct (lacks_present _ _ _ _ _ Hv Hn) as (-> & ->); cbn [bind].
  destruct records; reflexivity.
Qed.

(** ** The transport layer *)

Lemma check_result_not_object (repr : pyval -> string) (result : pyval) :
  match result with PDict _ => False | _ => True end ->
  exists e, check_result repr result = Raise e.
Proof.
  unfold check_result; destruct result; intros H; try contradiction;
    cbn [contains bind]; eauto.
  - destruct (substring_of "errors" s); cbn [getitem get bind]; eauto.
  - destruct (existsb _ items); cbn [getitem get bind]; eauto.
Qed.

(** [execute_query] raises nothing but [GitHubClientError]; it raises in the
    three classified conditions and in no other; otherwise it returns the
    data member of the body. *)
Lemma handle_classification (repr : pyval -> string)
    (builtin_text : exn -> string) (outcome : http_outcome) :
  (forall e, handle repr builtin_text outcome = Raise e ->
             exists msg, e = GitHubClientError msg)
  /\ ((exists e, handle repr builtin_text outcome = Raise e)
      <-> transport_failure outcome \/ reports_errors outcome
          \/ data_missing outcome)
  /\ (forall entries data,
         outcome = Body (PDict entries) ->
         lookup (PStr "errors") entries = None ->
         lookup (PStr "data") entries = Some data ->
         data <> PNone ->
         handle repr builtin_text outcome = Ok data).
Proof.
  assert (Hok : forall entries data,
             lookup (PStr "errors") entries = None ->
             lookup (PStr "data") entries = Some data ->
             data <> PNone ->
             handle repr builtin_text (Body (PDict entries)) = Ok data).
  { intros entries data He Hd Hn.
    unfold handle, check_result, contains, get; rewrite He, Hd; cbn [bind].
    destruct data; try reflexivity; contradiction. }
  split; [|split].
  - intros e; destruct outcome as [code text | text | result]; cbn [handle].
    + intros [= <-]; eauto.
    + intros [= <-]; eauto.
    + destruct (check_result repr result); [discriminate|].
      intros [= <-]; eauto.
  - split.
    + intros (e & He).
      destruct outcome as [code text | text | result];
        [left; exact I | left; exact I | right].
      destruct result as [| | | | | |entries];
        try (right; eexists; split; [reflexivity | exact I]).
      destruct (lookup (PStr "errors") entries) as [errors|] eqn:Herr;
        [left; exists entries, errors; auto | right].
      exists (PDict entries); split; [reflexivity|]; split; [exact Herr|].
      destruct (lookup (PStr "data") entries) as [data|] eqn:Hdata;
        [|left; exact Hdata].
      destruct data;
        try (rewrite (Hok _ _ Herr Hdata) in He by discriminate; discriminate).
      right; exact Hdata.
    + intros [H | [(entries & errors & -> & He) | (result & -> & H)]].
      * destruct outcome;
          [eexists; reflexivity | eexists; reflexivity | contradiction].
      * unfold handle, check_result, contains, getitem; rewrite He.
        eexists; reflexivity.
      * destruct result as [| | | | | |entries];
          try (match goal with
               | |- context [Body ?r] =>
                   destruct (check_result_not_object repr r H) as (e & He)
               end; cbn [handle]; rewrite He; eexists; reflexivity).
        destruct H as (He & [Hd | Hd]);
          unfold handle, check_result, contains, get; rewrite He, Hd;
          eexists; reflexivity.
  - intros entries data ->; apply Hok.
Qed.

(** ** The operations and their calls *)

Section Operations.

Variable repr : pyval -> string.
Variable builtin_text : exn -> string.
Variable remote : list request -> request -> http_outcome.

#[local] Abbreviation handle := (GitHubClient.handle repr builtin_text).
#[local] Abbreviation execute_query :=
  (GitHubClient.execute_query repr builtin_text remote).
#[local] Abbreviation get_project_node_id :=
  (GitHubClient.get_project_node_id repr builtin_text remote).
#[local] Abbreviation invoke := (GitHubClient.invoke repr builtin_text remote).

Lemma execute_query_run (q : string) (vars : pyval) (log : list request) :
  truthy vars = true ->
  execute_query q vars log
  = (handle (remote log (Request q vars)), (log ++ [Request q vars])%list).
Proof. intros H; unfold GitHubClient.execute_query; rewrite H; reflexivity. Qed.

(** The lookup makes one call and reads the id off its answer. *)
Lemma get_project_node_id_run (owner : string) (n : Z) (log : list request) :
  get_project_node_id owner n log
  = (bind (handle (remote log (project_lookup owner n)))
          (project_id_of owner n),
     (log ++ [project_lookup owner n])%list).
Proof.
  unfold GitHubClient.get_project_node_id, io_bind, pure.
  rewrite execute_query_run by reflexivity.
  fold (project_lookup owner n).
  destruct (handle _); reflexivity.
Qed.

(** C6.  Each operation on a project makes the project lookup its first
    call; when the lookup fails the operation ends there: it raises the
    lookup's failure and the lookup is the only call it has made. *)
Theorem resolution_failure_aborts :
  forall (c : call) (owner : string) (n : Z),
    project_scope c = Some (owner, n) ->
    forall log : list request,
      (exists rest,
          snd (invoke c log) = (log ++ project_lookup owner n :: rest)%list)
      /\ (forall e,
             fst (get_project_node_id owner n log) = Raise e ->
             invoke c log = (Raise e, (log ++ [project_lookup owner n])%list)).
Proof.
  intros c owner n Hc log.
  destruct c; simpl in Hc; try discriminate; injection Hc as -> ->;
    unfold GitHubClient.invoke, get_project_fields, get_project_items,
      add_issue_to_project, add_draft_issue_to_project,
      update_project_item_field, delete_project_item,
      update_project_settings.
  all: unfold io_bind; rewrite get_project_node_id_run; simpl.
  all: destruct (bind _ (project_id_of owner n)) as [project_id | e0];
    [ | split; [exists []; reflexivity | intros e [= ->]; reflexivity]].
  all: split; [ | intros e He; discriminate He].
  all: unfold pure.
  all: repeat match goal with
         | |- context [execute_query ?q ?v ?l] =>
             rewrite (execute_query_run q v l) by reflexivity
         | |- context [match ?r with Ok _ => _ | Raise _ => _ end] =>
             destruct r
         | |- context [let (_, _) := ?r in _] => destruct r
         end; simpl.
  all: rewrite <- ?app_assoc; simpl; eexists; reflexivity.
Qed.

Ltac unfold_operations :=
  unfold GitHubClient.invoke, get_projects, get_project_fields,
    get_project_items, create_issue, add_issue_to_project,
    add_draft_issue_to_project, update_project_item_field,
    delete_project_item, update_project_settings in *;
  unfold io_bind, pure, io_raise in *.

(** Run an operation step by step, splitting on the outcome of each step. *)
Ltac run_steps :=
  repeat first
    [ rewrite get_project_node_id_run in *
    | rewrite execute_query_run in * by reflexivity
    | match goal with
      | H : context [match ?r with Ok _ => _ | Raise _ => _ end] |- _ =>
          destruct r eqn:?
      | |- context [match ?r with Ok _ => _ | Raise _ => _ end] =>
          destruct r eqn:?
      | |- context [if (?x =? ?y)%string then _ else _] =>
          destruct (x =? y)%string eqn:?
      end
    | progress cbn [fst snd] in * ].

(** The last call of a run, read off its log. *)
Ltac last_call H :=
  apply app_inj_tail in H; destruct H as [<- <-].

(** The identities that a mutating operation needs are resolved: the
    lookups it makes, in their order, each answered with the identity asked
    for, and the mutation request that follows from the answers.  For the
    field update the value must give an input as well. *)
Inductive resolved (log : list request)
  : call -> list request -> request -> Prop :=
| resolved_create_issue (owner repo title body : string)
    (entries repository : list (pyval * pyval)) (id : pyval) :
    handle (remote log (repository_lookup owner repo)) = Ok (PDict entries) ->
    lookup (PStr "repository") entries = Some (PDict repository) ->
    lookup (PStr "id") repository = Some id ->
    resolved log (CreateIssue owner repo title body)
      [repository_lookup owner repo]
      (Request "CreateIssue"
         (dict [("repositoryId", id); ("title", PStr title);
                ("body", PStr body)]))
| resolved_add_issue (owner : string) (n : Z) (issue_owner issue_repo : string)
    (issue_number : Z) (project_id : pyval)
    (entries repository issue : list (pyval * pyval)) (id : pyval) :
    fst (get_project_node_id owner n log) = Ok project_id ->
    handle (remote (log ++ [project_lookup owner n])%list
                   (issue_lookup issue_owner issue_repo issue_number))
    = Ok (PDict entries) ->
    lookup (PStr "repository") entries = Some (PDict repository) ->
    lookup (PStr "issue") repository = Some (PDict issue) ->
    lookup (PStr "id") issue = Some id ->
    resolved log
      (AddIssueToProject owner n issue_owner issue_repo issue_number)
      [project_lookup owner n;
       issue_lookup issue_owner issue_repo issue_number]
      (Request "AddItemToProject"
         (dict [("projectId", project_id); ("contentId", id)]))
| resolved_add_draft (owner : string) (n : Z) (title body : string)
    (project_id : pyval) :
    fst (get_project_node_id owner n log) = Ok project_id ->
    resolved log (AddDraftIssueToProject owner n title body)
      [project_lookup owner n]
      (Request "AddDraftIssueToProject"
         (dict [("projectId", project_id); ("title", PStr title);
                ("body", PStr body)]))
| resolved_update_field (owner : string) (n : Z) (item_id field_id : string)
    (value project_id input : pyval) :
    fst (get_project_node_id owner n log) = Ok project_id ->
    field_value_input repr field_id value = Ok input ->
    resolved log (UpdateProjectItemField owner n item_id field_id value)
      [project_lookup owner n]
      (field_update project_id item_id field_id input)
| resolved_delete (owner : string) (n : Z) (item_id : string)
    (project_id : pyval) :
    fst (get_project_node_id owner n log) = Ok project_id ->
    resolved log (DeleteProjectItem owner n item_id)
      [project_lookup owner n]
      (Request "DeleteProjectItem"
         (dict [("projectId", project_id); ("itemId", PStr item_id)]))
| resolved_update_settings (owner : string) (n : Z)
    (title description : option string) (public : option bool)
    (project_id : pyval) :
    fst (get_project_node_id owner n log) = Ok project_id ->
    resolved log (UpdateProjectSettings owner n title description public)
      [project_lookup owner n]
      (Request "UpdateProject"
         (dict [("input",
                 input_params project_id title description public)])).

(** The end of a mutating run: the mutation is the last call, a failure of
    the call is raised as it is, and of an answer with data the payload is
    read. *)
Lemma mutation_step (history : list request) (req : request)
    (a b msg : string) :
  let run := match handle (remote history req) with
             | Ok result => (require result a b msg, (history ++ [req])%list)
             | Raise e => (Raise e, (history ++ [req])%list)
             end in
  snd run = (history ++ [req])%list
  /\ (forall e, handle (remote history req) = Raise e -> fst run = Raise e)
  /\ (forall entries : list (pyval * pyval),
         handle (remote history req) = Ok (PDict entries) ->
         (absent a b entries -> fst run = Raise (GitHubClientError msg))
         /\ (forall (wrapper : list (pyval * pyval)) (p : pyval),
                lookup (PStr a) entries = Some (PDict wrapper) ->
                lookup (PStr b) wrapper = Some p ->
                (truthy p = true -> fst run = Ok p)
                /\ (truthy p = false ->
                    fst run = Raise (GitHubClientError msg)))).
Proof.
  intros run; subst run; split; [|split].
  - destruct (handle _); reflexivity.
  - intros e ->; reflexivity.
  - intros entries ->; cbn [fst]; split.
    + apply require_absent.
    + intros wrapper p Ho Hi; split.
      * apply (require_present _ _ _ _ _ _ Ho Hi).
      * apply (require_falsy _ _ _ _ _ _ Ho Hi).
Qed.

(** The run of a mutating operation whose identities are resolved. *)
Lemma mutation_run (c : call) (m : mutation) (log lookups : list request)
    (req : request) :
  mutation_of c = Some m ->
  resolved log c lookups req ->
  invoke c log
  = match handle (remote (log ++ lookups)%list req) with
    | Ok result =>
        (require result (outer m) (inner m) (failure m),
         ((log ++ lookups) ++ [req])%list)
    | Raise e => (Raise e, ((log ++ lookups) ++ [req])%list)
    end.
Proof.
  intros Hm Hr.
  destruct Hr; cbn in Hm; injection Hm as <-;
    cbn [document outer inner failure];
    unfold_operations;
    rewrite ?get_project_node_id_run in *; cbn [fst] in *.
  - rewrite execute_query_run by reflexivity.
    fold (repository_lookup owner repo).
    rewrite H; unfold getitem2, get, getitem.
    rewrite H0; cbn [bind]; rewrite (lookup_nonempty _ _ _ H1), H1.
    cbn [negb bind]; rewrite execute_query_run by reflexivity.
    reflexivity.
  - rewrite H, execute_query_run by reflexivity.
    fold (issue_lookup issue_owner issue_repo issue_number).
    rewrite H0, (require_present _ _ _ _ _ _ H1 H2 (lookup_nonempty _ _ _ H3)).
    cbn [bind]; unfold getitem; rewrite H3.
    rewrite execute_query_run by reflexivity.
    rewrite <- (app_assoc log [_] [_]); reflexivity.
  - rewrite H, execute_query_run by reflexivity; reflexivity.
  - rewrite H, H0, execute_query_run by reflexivity; reflexivity.
  - rewrite H, execute_query_run by reflexivity; reflexivity.
  - rewrite H, execute_query_run by reflexivity; reflexivity.
Qed.

(** C7.  A mutating operation whose identities are resolved sends its
    mutation: the run is the lookups followed by exactly one mutation call,
    which is its last call.  A failure of that call is raised as it is.
    When the call is answered with data, the operation looks for the payload
    nested in it: if the payload is missing or null the operation raises
    its mutation failure; a payload that is there is returned when it
    counts as true, as an object with members or a node id does, and raises
    the mutation failure when it does not. *)
Theorem mutation_payload_checked :
  forall (c : call) (m : mutation) (log lookups : list request)
         (req : request),
    mutation_of c = Some m ->
    resolved log c lookups req ->
    query req = document m
    /\ Forall (fun r => query r <> document m) lookups
    /\ snd (invoke c log) = (log ++ lookups ++ [req])%list
    /\ (forall e, handle (remote (log ++ lookups)%list req) = Raise e ->
                  fst (invoke c log) = Raise e)
    /\ (forall entries : list (pyval * pyval),
           handle (remote (log ++ lookups)%list req) = Ok (PDict entries) ->
           (absent (outer m) (inner m) entries ->
              fst (invoke c log) = Raise (GitHubClientError (failure m)))
           /\ (forall (wrapper : list (pyval * pyval)) (p : pyval),
                  lookup (PStr (outer m)) entries = Some (PDict wrapper) ->
                  lookup (PStr (inner m)) wrapper = Some p ->
                  (truthy p = true -> fst (invoke c log) = Ok p)
                  /\ (truthy p = false ->
                      fst (invoke c log)
                      = Raise (GitHubClientError (failure m))))).
Proof.
  intros c m log lookups req Hm Hr.
  split; [destruct Hr; cbn in Hm; injection Hm as <-; reflexivity|].
  split; [destruct Hr; cbn in Hm; injection Hm as <-;
          repeat constructor; discriminate|].
  rewrite (mutation_run _ _ _ _ _ Hm Hr), (app_assoc log).
  apply mutation_step.
Qed.
#[local] Abbreviation update_project_item_field :=
  (GitHubClient.update_project_item_field repr builtin_text remote).
#[local] Abbreviation get_projects :=
  (GitHubClient.get_projects repr builtin_text remote).
#[local] Abbreviation update_project_settings :=
  (GitHubClient.update_project_settings repr builtin_text remote).

(** C2, as the code has it.  For a value of the wrong type for the prefix
    of the field id, [update_project_item_field] makes exactly one transport
    call, the project lookup, and never sends the mutation.  If the lookup
    fails, its failure is raised; if it succeeds, the invalid-type failure
    is raised. *)
Theorem wrong_type_rejected_after_lookup :
  forall (owner : string) (n : Z) (item_id field_id : string) (value : pyval)
         (log : list request),
    wrong_type field_id value = true ->
    let run := update_project_item_field owner n item_id field_id value log in
    snd run = (log ++ [project_lookup owner n])%list
    /\ (forall e, fst (get_project_node_id owner n log) = Raise e ->
                  fst run = Raise e)
    /\ (forall project_id,
           fst (get_project_node_id owner n log) = Ok project_id ->
           exists kind expected,
             fst run = Raise (InvalidInput kind field_id expected)).
Proof.
  intros owner n item_id field_id value log Hw run; subst run.
  destruct (wrong_type_rejected repr _ _ Hw) as (kind & expected & Hi).
  unfold GitHubClient.update_project_item_field, io_bind, pure.
  rewrite get_project_node_id_run, Hi; cbn [fst snd].
  destruct (bind _ (project_id_of owner n)) as [project_id | e0];
    cbn [fst snd]; repeat split; try discriminate.
  - exists kind, expected; reflexivity.
  - intros e [= ->]; reflexivity.
Qed.

(** C5.  [get_projects] first asks for the kind of the owner.  Once the
    kind is known it asks for one page of at most 50 projects, of the
    organization or of the user, and makes no further call.  Of the answer
    to that: a projects collection that is absent raises the
    could-not-retrieve failure; a collection that is there gives its nodes,
    be the list empty or not. *)
Theorem get_projects_dispatch :
  forall (owner : string) (log : list request),
    let run := get_projects owner log in
    (exists rest, snd run = (log ++ owner_lookup owner :: rest)%list)
    /\ (forall (data : pyval) (kind : string) (id : pyval),
           handle (remote log (owner_lookup owner)) = Ok data ->
           owner_type owner data = Ok (kind, id) ->
           (kind = "organization" \/ kind = "user")
           /\ snd run
              = (log ++ [owner_lookup owner; projects_fetch kind owner])%list
           /\ (forall entries : list (pyval * pyval),
                  handle (remote (log ++ [owner_lookup owner])
                                 (projects_fetch kind owner))
                  = Ok (PDict entries) ->
                  (absent kind "projectsV2" entries ->
                     fst run
                     = Raise (GitHubClientError
                                ("Could not retrieve projects for " ++ kind
                                 ++ " " ++ owner)))
                  /\ (forall (scope collection : list (pyval * pyval))
                             (nodes : pyval),
                         lookup (PStr kind) entries = Some (PDict scope) ->
                         lookup (PStr "projectsV2") scope
                         = Some (PDict collection) ->
                         lookup (PStr "nodes") collection = Some nodes ->
                         fst run = Ok nodes))).
Proof.
  intros owner log run; subst run; split.
  - unfold GitHubClient.get_projects, io_bind, pure, io_raise.
    rewrite execute_query_run by reflexivity.
    fold (owner_lookup owner).
    destruct (handle _) as [data|]; [|exists []; reflexivity].
    destruct (owner_type owner data) as [[kind id]|];
      [|exists []; reflexivity].
    cbn [fst].
    destruct (kind =? "organization")%string;
      [|destruct (kind =? "user")%string].
    1,2: rewrite execute_query_run by reflexivity;
      destruct (handle _); rewrite <- app_assoc; eexists; reflexivity.
    exists []; reflexivity.
  - intros data kind id Hdata Hkind.
    pose proof (owner_type_kind _ _ _ _ Hkind) as Hk.
    split; [exact Hk|].
    unfold GitHubClient.get_projects, io_bind, pure, io_raise.
    rewrite execute_query_run by reflexivity.
    fold (owner_lookup owner); rewrite Hdata, Hkind; cbn [fst].
    destruct Hk as [-> | ->]; cbn [String.eqb Ascii.eqb Bool.eqb];
      rewrite execute_query_run by reflexivity.
    all: match goal with
         | |- context [handle (remote ?l ?r)] =>
             change r with (projects_fetch "organization" owner)
             || change r with (projects_fetch "user" owner)
         end.
    all: split;
      [ match goal with
        | |- context [match ?r with Ok _ => _ | Raise _ => _ end] =>
            destruct r
        end; rewrite <- app_assoc; reflexivity |].
    all: intros entries ->; cbn [fst]; split.
    + intros Ha; rewrite (require_absent _ _ _ _ Ha); reflexivity.
    + intros scope collection nodes Hs Hc Hn.
      rewrite (require_present _ _ _ _ _ _ Hs Hc (lookup_nonempty _ _ _ Hn)).
      cbn [bind]; unfold getitem; rewrite Hn; reflexivity.
    + intros Ha; rewrite (require_absent _ _ _ _ Ha); reflexivity.
    + intros scope collection nodes Hs Hc Hn.
      rewrite (require_present _ _ _ _ _ _ Hs Hc (lookup_nonempty _ _ _ Hn)).
      cbn [bind]; unfold getitem; rewrite Hn; reflexivity.
Qed.

(** Fail-fast: whenever the last call of a run failed in the transport
    layer, the operation raises exactly that failure. *)
Lemma transport_failure_surfaces (c : call) (log history : list request)
    (req : request) (e : exn) :
  snd (invoke c log) = (history ++ [req])%list ->
  handle (remote history req) = Raise e ->
  fst (invoke c log) = Raise e.
Proof.
  intros Hlog Hfail.
  destruct c; unfold_operations;
    unfold GitHubClient.get_project_node_id, io_bind, pure in *; run_steps.
  all: last_call Hlog; congruence.
Qed.

End Operations.

(** ** Project settings *)

(** C8.  The input object of [update_project_settings] holds the project id
    followed by one entry for each of title, description and visibility that
    was supplied, and nothing else: a setting left out has no entry, not an
    entry with a null.  This object is what the mutation call sends. *)
Theorem input_params_supplied_only :
  forall (project_id : pyval) (title description : option string)
         (public : option bool),
    input_params project_id title description public
    = PDict ((PStr "projectId", project_id)
             :: supplied "title" (option_map PStr title)
             ++ supplied "shortDescription" (option_map PStr description)
             ++ supplied "public" (option_map PBool public))
    /\ (forall repr builtin_text remote (owner : string) (n : Z)
               (log : list request),
           fst (get_project_node_id repr builtin_text remote owner n log)
           = Ok project_id ->
           snd (update_project_settings repr builtin_text remote owner n
                  title description public log)
           = (log ++ [project_lookup owner n;
                      Request "UpdateProject"
                        (dict [("input",
                                input_params project_id title description
                                  public)])])%list).
Proof.
  intros project_id title description public; split.
  - destruct title, description, public; reflexivity.
  - intros repr builtin_text remote owner n log H.
    unfold update_project_settings, io_bind, pure.
    rewrite get_project_node_id_run in *; cbn [fst] in H; rewrite H.
    rewrite execute_query_run by reflexivity.
    match goal with
    | |- context [match ?r with Ok _ => _ | Raise _ => _ end] => destruct r
    end; rewrite <- app_assoc; reflexivity.
Qed.

(* ================================================================== *)
(** * The properties at work on the sample remotes                      *)
(* ================================================================== *)

Section Runs.
Import Examples.

(** With the remote down, deleting an item stops at the project lookup. *)
Lemma resolution_failure_aborts_witness :
  invoke repr0 text0 remote_down (DeleteProjectItem "acme" 1 "I1") []
  = (Raise (GitHubClientError
              "Unexpected error executing GraphQL query: connection refused"),
     [project_lookup "acme" 1]).
Proof.
  apply (proj2 (resolution_failure_aborts repr0 text0 remote_down
                  (DeleteProjectItem "acme" 1 "I1") "acme" 1 eq_refl [])).
  reflexivity.
Defined.

(** A draft is added with the lookup and the mutation, and the new item is
    returned.  A deletion that the remote confirms returns the deleted id;
    one that it answers with a null payload raises the mutation failure. *)
Lemma mutation_payload_checked_witness :
  invoke repr0 text0 remote_drafts
    (AddDraftIssueToProject "acme" 1 "Draft" "Notes") []
  = (Ok (dict [("id", PStr "PVTI_9")]),
     [project_lookup "acme" 1;
      Request "AddDraftIssueToProject"
        (dict [("projectId", PStr "P1"); ("title", PStr "Draft");
               ("body", PStr "Notes")])])
  /\ invoke repr0 text0 remote_acme (DeleteProjectItem "acme" 1 "I1") []
     = (Ok (PStr "I1"),
        [project_lookup "acme" 1;
         Request "DeleteProjectItem"
           (dict [("projectId", PStr "P1"); ("itemId", PStr "I1")])])
  /\ fst (invoke repr0 text0 remote_initech
            (DeleteProjectItem "initech" 1 "I1") [])
     = Raise (GitHubClientError "Failed to delete item I1").
Proof.
  split; [|split].
  - destruct (mutation_payload_checked repr0 text0 remote_drafts
                (AddDraftIssueToProject "acme" 1 "Draft" "Notes") _ [] _ _
                eq_refl
                (resolved_add_draft repr0 text0 remote_drafts [] "acme" 1
                   "Draft" "Notes" (PStr "P1") eq_refl))
      as (_ & _ & Hlog & _ & Hdata).
    destruct (Hdata _ eq_refl) as (_ & Hpayload).
    destruct (Hpayload _ (dict [("id", PStr "PVTI_9")]) eq_refl eq_refl)
      as (Hthere & _).
    rewrite (surjective_pairing (invoke _ _ _ _ _)), Hlog, (Hthere eq_refl).
    reflexivity.
  - destruct (mutation_payload_checked repr0 text0 remote_acme
                (DeleteProjectItem "acme" 1 "I1") _ [] _ _ eq_refl
                (resolved_delete repr0 text0 remote_acme [] "acme" 1 "I1"
                   (PStr "P1") eq_refl))
      as (_ & _ & Hlog & _ & Hdata).
    destruct (Hdata _ eq_refl) as (_ & Hpayload).
    destruct (Hpayload _ (PStr "I1") eq_refl eq_refl) as (Hthere & _).
    rewrite (surjective_pairing (invoke _ _ _ _ _)), Hlog, (Hthere eq_refl).
    reflexivity.
  - destruct (mutation_payload_checked repr0 text0 remote_initech
                (DeleteProjectItem "initech" 1 "I1") _ [] _ _ eq_refl
                (resolved_delete repr0 text0 remote_initech [] "initech" 1
                   "I1" (PStr "P1") eq_refl))
      as (_ & _ & _ & _ & Hdata).
    destruct (Hdata _ eq_refl) as (Habsent & _).
    apply Habsent; left; right; reflexivity.
Defined.

(** C1 as stated fails: an integer beyond the range of a double is an int,
    yet on a number field it gives no [{number: ...}] input and is not
    rejected as a value of the wrong type either; the conversion itself
    raises.  And the text prefix does not take every value: an integer of
    4301 digits has no text, so the conversion to a string raises. *)
Lemma oversize_int_not_converted :
  startswith "PVTNU_1" "PVTNU_" = true
  /\ isinstance_int_float (PInt (2 ^ 1024)) = true
  /\ field_value_input repr0 "PVTNU_1" (PInt (2 ^ 1024)) = Raise OverflowError
  /\ startswith "PVTF_1" "PVTF_" = true
  /\ field_value_input repr0 "PVTF_1" (PInt (10 ^ 4300)) = Raise ValueError.
Proof.
  do 4 (split; [vm_compute; reflexivity|]).
  assert (Hr : renders (PInt (10 ^ 4300)) = false).
  { cbn [renders]; unfold within_str_digits, max_str_digits.
    rewrite Z.abs_eq by (apply Z.pow_nonneg; lia); apply Z.ltb_irrefl. }
  unfold field_value_input, str_of_value; rewrite Hr; reflexivity.
Qed.

(** C2 as stated fails: a number given for a single-select field is
    rejected, but only after the project lookup has gone out. *)
Lemma wrong_type_makes_one_call :
  wrong_type "PVTSSF_1" (PInt 1) = true
  /\ update_project_item_field repr0 text0 remote_lookup_only
       "acme" 1 "I1" "PVTSSF_1" (PInt 1) []
     = (Raise (InvalidInput "single select" "PVTSSF_1" "option ID string"),
        [project_lookup "acme" 1])
  /\ List.length (snd (update_project_item_field repr0 text0 remote_lookup_only
                    "acme" 1 "I1" "PVTSSF_1" (PInt 1) []))
     <> 0%nat.
Proof. repeat split; vm_compute; discriminate. Qed.

Lemma wrong_type_rejected_after_lookup_witness :
  snd (update_project_item_field repr0 text0 remote_lookup_only
         "acme" 1 "I1" "PVTNU_1" (PStr "not-a-number") [])
  = [project_lookup "acme" 1]
  /\ exists kind expected,
       fst (update_project_item_field repr0 text0 remote_lookup_only
              "acme" 1 "I1" "PVTNU_1" (PStr "not-a-number") [])
       = Raise (InvalidInput kind "PVTNU_1" expected).
Proof.
  pose proof (wrong_type_rejected_after_lookup repr0 text0 remote_lookup_only
                "acme" 1 "I1" "PVTNU_1" (PStr "not-a-number") [] eq_refl) as H.
  cbv zeta in H; destruct H as (Hlog & _ & Hok).
  split; [exact Hlog | apply (Hok (PStr "P1")); reflexivity].
Defined.

(** Listing the projects of the user [acme] takes the owner lookup and one
    user-scoped page; the organization [initech] has an empty collection,
    which is a result and not a failure. *)
Lemma get_projects_dispatch_witness :
  get_projects repr0 text0 remote_acme "acme" []
  = (Ok (PList [roadmap]),
     [owner_lookup "acme";
      Request "GetUserProjects"
              (dict [("login", PStr "acme"); ("first", PInt 50)])])
  /\ fst (get_projects repr0 text0 remote_initech "initech" [])
     = Ok (PList []).
Proof.
  split.
  - pose proof (get_projects_dispatch repr0 text0 remote_acme "acme" []) as H.
    cbv zeta in H; destruct H as (_ & H).
    destruct (H _ "user" (PStr "U1") eq_refl eq_refl) as (_ & Hlog & Hpage).
    destruct (Hpage _ eq_refl) as (_ & Hnodes).
    specialize (Hnodes _ _ (PList [roadmap]) eq_refl eq_refl eq_refl).
    rewrite (surjective_pairing (get_projects _ _ _ _ _)), Hlog, Hnodes.
    reflexivity.
  - pose proof (get_projects_dispatch repr0 text0 remote_initech "initech" [])
      as H.
    cbv zeta in H; destruct H as (_ & H).
    destruct (H _ "organization" (PStr "O1") eq_refl eq_refl)
      as (_ & _ & Hpage).
    destruct (Hpage _ eq_refl) as (_ & Hnodes).
    exact (Hnodes _ _ (PList []) eq_refl eq_refl eq_refl).
Defined.

(** Changing only the title sends the project id and the title. *)
Lemma input_params_supplied_only_witness :
  snd (update_project_settings repr0 text0 remote_acme "acme" 1
         (Some "Roadmap 2025") None None [])
  = [project_lookup "acme" 1;
     Request "UpdateProject"
       (dict [("input", dict [("projectId", PStr "P1");
                              ("title", PStr "Roadmap 2025")])])].
Proof.
  apply (proj2 (input_params_supplied_only (PStr "P1") (Some "Roadmap 2025")
                  None None) repr0 text0 remote_acme "acme" 1 []).
  reflexivity.
Defined.

(** C4, where the code departs from it.  Listing the items of [acme]'s
    project: the second item has its field values replaced by the mapping
    from field name to scalar (the iteration value as its title and start
    date, the unrecognised record as the placeholder under the
    unknown-field name); the first item, which has no field values, is
    returned with the raw object still in place instead of an empty
    mapping. *)
Theorem empty_field_values_not_replaced :
  fst (get_project_items repr0 text0 remote_acme "acme" 1 20 [])
  = Ok (PList
          [dict [("id", PStr "I1");
                 ("fieldValues", dict [("nodes", PList [])])];
           dict [("id", PStr "I2");
                 ("fieldValues",
                  dict [("Iteration", PStr "Sprint 4 (Start: 2025-01-01)");
                        ("UnknownField", PStr "N/A")])]]).
Proof. vm_compute; reflexivity. Qed.

(** C9, where the code departs from it.  Updating a number field with an
    integer beyond the range of a double fails, after the project lookup,
    with the built-in [OverflowError] of the conversion, which is not the
    client's [GitHubClientError]. *)
Theorem overflow_surfaces_unconverted :
  isinstance_int_float (PInt (2 ^ 1024)) = true
  /\ update_project_item_field repr0 text0 remote_lookup_only
       "acme" 1 "I1" "PVTNU_1" (PInt (2 ^ 1024)) []
     = (Raise OverflowError, [project_lookup "acme" 1])
  /\ (forall msg, OverflowError <> GitHubClientError msg).
Proof. repeat split; try discriminate; vm_compute; reflexivity. Qed.

(** The same happens at other unguarded steps: a null among the item nodes
    makes the first read of the item raise [AttributeError]. *)
Lemma null_item_surfaces_unconverted :
  fst (get_project_items repr0 text0 remote_null_item "acme" 1 20 [])
  = Raise AttributeError.
Proof. vm_compute; reflexivity. Qed.

End Runs.

(* ================================================================== *)
(** * The tools of [src/github_projects_mcp/server.py]                  *)
(* ================================================================== *)

Module Server.
Import Py GitHubClient.

(** A line break, as [\n] in the tools' texts. *)
Definition nl : string := String (ascii_of_nat 10) EmptyString.

(** [x.is_integer()]: the float is finite and has no fractional part. *)
Definition is_integer (x : spec_float) : bool :=
  match float_integral x with
  | Some _ => true
  | None => false
  end.

(** [int(x)] for a float on which [is_integer] holds. *)
Definition int_of_float (x : spec_float) : Z :=
  match float_integral x with
  | Some k => k
  | None => 0
  end.

(** [try: ... except GitHubClientError as e: return handler(str(e))]: the
    client's own failure becomes the returned text; any other exception
    passes. *)
Definition except_client_error (body : io string) (handler : string -> string)
  : io string :=
  fun log =>
    match body log with
    | (Raise (GitHubClientError msg), log') => (Ok (handler msg), log')
    | run => run
    end.

Section Tools.

Variable repr : pyval -> string.
Variable builtin_text : exn -> string.
Variable remote : list request -> request -> http_outcome.

(** [float(s)] on a text: the float it denotes, or nothing where Python
    raises [ValueError]. *)
Variable parse_float : string -> option spec_float.

(** ** [list_projects] (lines 41-68) *)

(** The four lines and the blank line that one project adds. *)
Definition project_lines (project : pyval) : Py.result string :=
  id <- getitem project "id" ;;
  number <- getitem project "number" ;;
  title <- getitem project "title" ;;
  url <- getitem project "url" ;;
  Ok ("- ID: " ++ str repr id ++ nl
      ++ "  Number: " ++ str repr number ++ nl
      ++ "  Title: " ++ str repr title ++ nl
      ++ "  URL: " ++ str repr url ++ nl
      ++ nl).

(** [for project in projects: result += ...] *)
Fixpoint append_lines (line : pyval -> Py.result string) (l : list pyval)
    (result : string) : Py.result string :=
  match l with
  | [] => Ok result
  | x :: rest =>
      s <- line x ;;
      append_lines line rest (result ++ s)
  end.

Definition list_projects (owner : string) : io string :=
  except_client_error
    (projects <~ get_projects repr builtin_text remote owner ;;
     pure (if negb (truthy projects) then
             Ok ("No projects found for " ++ owner)
           else
             l <- iterate projects ;;
             append_lines project_lines l
               ("Projects for " ++ owner ++ ":" ++ nl ++ nl)))
    (fun e => "Error: Could not list projects for " ++ owner
              ++ ". Details: " ++ e).

(** ** [get_project_fields] (lines 71-113) *)

(** Line 98: one option of a single-select field. *)
Definition option_line (option : pyval) : Py.result string :=
  name <- getitem option "name" ;;
  id <- getitem option "id" ;;
  Ok ("    - " ++ str repr name ++ " (ID: " ++ str repr id ++ ")" ++ nl).

(** Lines 104-106: one iteration of an iteration field. *)
Definition iteration_line (iteration : pyval) : Py.result string :=
  title <- get iteration "title" (PStr "Unnamed") ;;
  id <- getitem iteration "id" ;;
  start_date <- get iteration "startDate" (PStr "N/A") ;;
  Ok ("    - " ++ str repr title ++ " "
      ++ "(ID: " ++ str repr id ++ ", "
      ++ "Start: " ++ str repr start_date ++ ")" ++ nl).

(** Lines 90-108: what one field adds. *)
Definition field_lines (field : pyval) : Py.result string :=
  id <- getitem field "id" ;;
  name <- getitem field "name" ;;
  typename <- getitem field "__typename" ;;
  let result := "- ID: " ++ str repr id ++ nl
                ++ "  Name: " ++ str repr name ++ nl
                ++ "  Type: " ++ str repr typename ++ nl in
  options <- get field "options" PNone ;;
  result <-
    (if truthy options then
       options <- getitem field "options" ;;
       l <- iterate options ;;
       append_lines option_line l (result ++ "  Options:" ++ nl)
     else Ok result) ;;
  no_iterations <- lacks field "configuration" "iterations" ;;
  result <-
    (if negb no_iterations then
       iterations <- getitem2 field "configuration" "iterations" ;;
       l <- iterate iterations ;;
       append_lines iteration_line l (result ++ "  Iterations:" ++ nl)
     else Ok result) ;;
  Ok (result ++ nl).

Definition get_project_fields (owner : string) (project_number : Z)
  : io string :=
  except_client_error
    (fields <~ GitHubClient.get_project_fields repr builtin_text remote
                 owner project_number ;;
     pure (if negb (truthy fields) then
             Ok ("No fields found for project #" ++ str_int project_number
                 ++ " in " ++ owner)
           else
             l <- iterate fields ;;
             append_lines field_lines l
               ("Fields for project #" ++ str_int project_number ++ " in "
                ++ owner ++ ":" ++ nl ++ nl)))
    (fun e => "Error: Could not get fields for project " ++ owner ++ "/"
              ++ str_int project_number ++ ". Details: " ++ e).

(** ** [create_issue] (lines 187-211) *)

Definition create_issue (owner repo title body : string) : io string :=
  except_client_error
    (issue <~ GitHubClient.create_issue repr builtin_text remote
                owner repo title body ;;
     pure (number <- getitem issue "number" ;;
           title' <- getitem issue "title" ;;
           url <- getitem issue "url" ;;
           Ok ("Issue created successfully!" ++ nl ++ nl
               ++ "Repository: " ++ owner ++ "/" ++ repo ++ nl
               ++ "Issue Number: #" ++ str repr number ++ nl
               ++ "Title: " ++ str repr title' ++ nl
               ++ "URL: " ++ str repr url ++ nl)))
    (fun e => "Error: Could not create issue in " ++ owner ++ "/" ++ repo
              ++ ". Details: " ++ e).

(** ** [add_issue_to_project] (lines 214-246) *)

Definition add_issue_to_project (owner : string) (project_number : Z)
    (issue_owner issue_repo : string) (issue_number : Z) : io string :=
  except_client_error
    (result <~ GitHubClient.add_issue_to_project repr builtin_text remote
                 owner project_number issue_owner issue_repo issue_number ;;
     pure (id <- getitem result "id" ;;
           Ok ("Successfully added issue " ++ issue_owner ++ "/" ++ issue_repo
               ++ "#" ++ str_int issue_number ++ " to project #"
               ++ str_int project_number ++ "!" ++ nl
               ++ "Item ID: " ++ str repr id)))
    (fun e => "Error: Could not add issue to project. Details: " ++ e).

(** ** [update_project_item_field] (lines 249-299) *)

(** Lines 275-282: the text is sent as a number when [float] takes it, as
    an int when that number is whole, and as it is otherwise. *)
Definition parsed_value (field_value : string) : pyval :=
  match parse_float field_value with
  | Some x => if is_integer x then PInt (int_of_float x) else PFloat x
  | None => PStr field_value
  end.

Definition update_project_item_field (owner : string) (project_number : Z)
    (item_id field_id field_value : string) : io string :=
  except_client_error
    (_ <~ GitHubClient.update_project_item_field repr builtin_text remote
            owner project_number item_id field_id
            (parsed_value field_value) ;;
     pure (Ok ("Successfully updated field for item in project #"
               ++ str_int project_number ++ "!" ++ nl
               ++ "Item ID: " ++ item_id ++ nl
               ++ "Field ID: " ++ field_id ++ nl
               ++ "Value Set: " ++ field_value)))
    (fun e => "Error: Could not update field value. Details: " ++ e).

(** ** [create_draft_issue] (lines 302-328) *)

Definition create_draft_issue (owner : string) (project_number : Z)
    (title body : string) : io string :=
  except_client_error
    (result <~ add_draft_issue_to_project repr builtin_text remote
                 owner project_number title body ;;
     pure (id <- getitem result "id" ;;
           Ok ("Successfully created draft issue in project #"
               ++ str_int project_number ++ "!" ++ nl
               ++ "Item ID: " ++ str repr id ++ nl
               ++ "Title: " ++ title)))
    (fun e => "Error: Could not create draft issue. Details: " ++ e).

(** ** [delete_project_item] (lines 331-355) *)

Definition delete_project_item (owner : string) (project_number : Z)
    (item_id : string) : io string :=
  except_client_error
    (deleted_item_id <~ GitHubClient.delete_project_item repr builtin_text
                          remote owner project_number item_id ;;
     pure (Ok ("Successfully deleted item from project #"
               ++ str_int project_number ++ "!" ++ nl
               ++ "Deleted Item ID: " ++ str repr deleted_item_id)))
    (fun e => "Error: Could not delete item. Details: " ++ e).

(** ** The tools as one family *)

Inductive tool : Type :=
| ListProjects (owner : string)
| ToolGetProjectFields (owner : string) (project_number : Z)
| ToolCreateIssue (owner repo title body : string)
| ToolAddIssueToProject (owner : string) (project_number : Z)
    (issue_owner issue_repo : string) (issue_number : Z)
| ToolUpdateProjectItemField (owner : string) (project_number : Z)
    (item_id field_id field_value : string)
| CreateDraftIssue (owner : string) (project_number : Z) (title body : string)
| ToolDeleteProjectItem (owner : string) (project_number : Z)
    (item_id : string).

Definition run_tool (t : tool) : io string :=
  match t with
  | ListProjects owner => list_projects owner
  | ToolGetProjectFields owner n => get_project_fields owner n
  | ToolCreateIssue owner repo title body => create_issue owner repo title body
  | ToolAddIssueToProject owner n io ir i => add_issue_to_project owner n io ir i
  | ToolUpdateProjectItemField owner n item field value =>
      update_project_item_field owner n item field value
  | CreateDraftIssue owner n title body => create_draft_issue owner n title body
  | ToolDeleteProjectItem owner n item => delete_project_item owner n item
  end.

End Tools.
End Server.

(* ================================================================== *)
(** * Further samples and vocabulary                                    *)
(* ================================================================== *)

Module MoreExamples.
Import Py GitHubClient.

(** A remote on which no owner, project, repository or issue exists: every
    lookup is answered with null branches. *)
Definition remote_nobody (log : list request) (r : request) : http_outcome :=
  Body (dict [("data",
               dict [("organization", PNone); ("user", PNone);
                     ("repository", PNone)])]).

(** The organization [initech] owns project [P7] with two fields, the
    repository [initech/tps] and its issue [I9]; adding an item works. *)
Definition remote_project (log : list request) (r : request) : http_outcome :=
  if (query r =? "GetProjectId")%string then
    Body (dict [("data",
                 dict [("organization",
                        dict [("projectV2", dict [("id", PStr "P7")])]);
                       ("user", PNone)])])
  else if (query r =? "GetProjectFields")%string then
    Body (dict [("data",
                 dict [("node",
                        dict [("fields",
                               dict [("nodes",
                                      PList [dict [("id", PStr "PVTF_1");
                                                   ("name", PStr "Title")];
                                             dict [("id", PStr "PVTNU_2");
                                                   ("name", PStr "Points")]])])])])])
  else if (query r =? "GetRepositoryId")%string then
    Body (dict [("data", dict [("repository", dict [("id", PStr "R1")])])])
  else if (query r =? "GetIssueId")%string then
    Body (dict [("data",
                 dict [("repository",
                        dict [("issue", dict [("id", PStr "I9")])])])])
  else if (query r =? "AddItemToProject")%string then
    Body (dict [("data",
                 dict [("addProjectV2ItemById",
                        dict [("item", dict [("id", PStr "PVTI_1")])])])])
  else Body (dict [("errors", PList [PStr "unsupported"])]).

(** A reading of decimal texts good enough for the samples: ["42.0"] is the
    double 42, ["1.5"] the double 1.5, everything else is no number. *)
Definition parse_float0 (s : string) : option spec_float :=
  if (s =? "42.0")%string then
    Some (S754_finite false 5910974510923776 (-47))
  else if (s =? "1.5")%string then
    Some (S754_finite false 6755399441055744 (-52))
  else None.

(** The records of an item: an iteration value, and a record without type
    and field. *)
Definition sprint_records : list pyval :=
  [dict [("__typename", PStr "ProjectV2ItemFieldIterationValue");
         ("title", PStr "Sprint 4");
         ("startDate", PStr "2025-01-01");
         ("field", dict [("name", PStr "Iteration")])];
   dict []].

End MoreExamples.

(** The keys of the one-of input of the field update. *)
Definition input_keys : list string :=
  ["singleSelectOptionId"; "iterationId"; "text"; "date"; "number"].


(** The identity lookups of the operations: they only read. *)
Definition lookups : list string :=
  ["GetOwnerType"; "GetProjectId"; "GetRepositoryId"; "GetIssueId"].

(** The field id wants a string value. *)
Definition string_field (field_id : string) : bool :=
  startswith field_id "PVTSSF_" || startswith field_id "PVTIF_"
  || startswith field_id "PVTDF_".

(** A field-value record as the item query selects it: an object whose field
    reference, when it has one, is an object whose name, when it has one, is
    a string. *)
Definition field_record (fv : pyval) : Prop :=
  exists (entries field : list (pyval * pyval)) (name : string),
    fv = PDict entries
    /\ member_or "field" entries (PDict []) = PDict field
    /\ member_or "name" field (PStr "UnknownField") = PStr name.

(** The requests of the two fetches. *)
Definition fields_fetch (project_id : pyval) : request :=
  Request "GetProjectFields" (dict [("projectId", project_id)]).

Definition items_fetch (project_id : pyval) (limit : Z) : request :=
  Request "GetProjectItems"
          (dict [("projectId", project_id); ("first", PInt limit)]).

(** The project id a request carries: its [projectId] variable, or the
    [projectId] member of its [input] variable. *)
Definition carried_project_id (r : request) : option pyval :=
  match variables r with
  | PDict vars =>
      match lookup (PStr "projectId") vars with
      | Some id => Some id
      | None =>
          match lookup (PStr "input") vars with
          | Some (PDict input) => lookup (PStr "projectId") input
          | _ => None
          end
      end
  | _ => None
  end.

(* ================================================================== *)
(** * Further properties of the client                                  *)
(* ================================================================== *)

(** ** The one-of input *)

(** X12.  Whatever the field id and the value, an input that
    [update_project_item_field] builds is an object with exactly one member,
    under one of the five keys of the one-of input; the member is a float
    under [number] and a string under every other key. *)
Theorem field_value_input_one_of :
  forall (repr : pyval -> string) (field_id : string) (value input : pyval),
    field_value_input repr field_id value = Ok input ->
    exists (key : string) (payload : pyval),
      input = dict [(key, payload)]
      /\ In key input_keys
      /\ (key = "number" -> exists x, payload = PFloat x)
      /\ (key <> "number" -> exists s, payload = PStr s).
Proof.
  intros repr field_id value input; unfold field_value_input.
  assert (Hs : isinstance_str value = true -> exists s, value = PStr s).
  { destruct value; cbn; intros H; try discriminate; eauto. }
  repeat match goal with
         | |- context [if startswith ?a ?b then _ else _] =>
             destruct (startswith a b)
         end;
    try (destruct (isinstance_str value) eqn:E);
    try (destruct (isinstance_int_float value));
    try (destruct (py_float value) as [x|]; cbn [bind]);
    try (destruct (str_of_value repr value) as [text|]; cbn [bind]);
    try discriminate; intros [= <-]; eexists _, _;
    (split; [reflexivity|]); (split; [cbn; tauto|]);
    (split; [intros Hk; try discriminate Hk | intros Hk]);
    eauto; exfalso; apply Hk; reflexivity.
Qed.

(** ** Item field values *)

Lemma field_value_of_record (repr : pyval -> string) (fv : pyval) :
  field_record fv ->
  exists (name : string) (v : pyval), field_value repr fv = Ok (PStr name, v).
Proof.
  intros (entries & field & name & -> & Hf & Hn).
  unfold field_value; rewrite !get_member_or, Hf; cbn [bind].
  rewrite !get_member_or, Hn; cbn [bind].
  repeat match goal with
         | |- context [if is_str ?a ?b then _ else _] => destruct (is_str a b)
         end;
    rewrite ?get_member_or; cbn [bind]; eauto.
Qed.

Lemma processed_values_of_records (repr : pyval -> string)
    (records : list pyval) :
  Forall field_record records ->
  forall acc, exists d, processed_values repr records (PDict acc) = Ok (PDict d).
Proof.
  induction 1 as [|fv rest Hfv _ IH]; intros acc; cbn [processed_values].
  - eauto.
  - destruct (field_value_of_record repr fv Hfv) as (name & v & ->).
    cbn [bind fst snd setitem hashable]; apply IH.
Qed.


(** X7.  An item with at least one field-value record comes back with its
    [fieldValues] member replaced by a mapping: under each field name stands
    the scalar of the last record that bears the name, and names that no
    record bears are not in it.  The item's other members stay as they
    were. *)
Theorem item_field_values_mapping :
  forall (repr : pyval -> string) (entries values : list (pyval * pyval))
         (records : list pyval),
    lookup (PStr "fieldValues") entries = Some (PDict values) ->
    lookup (PStr "nodes") values = Some (PList records) ->
    records <> [] ->
    Forall field_record records ->
    exists (mapping entries' : list (pyval * pyval)),
      process_item repr (PDict entries) = Ok (PDict entries')
      /\ lookup (PStr "fieldValues") entries' = Some (PDict mapping)
      /\ (forall k, lookup (PStr k) mapping = last_value repr k records)
      /\ (forall k, k <> "fieldValues" ->
                    lookup (PStr k) entries' = lookup (PStr k) entries).
Proof.
  intros repr entries values records Hv Hn Hne Hrec.
  destruct (processed_values_of_records repr records Hrec []) as (d & Hd).
  destruct (processed_values_last_wins repr records [] _ Hd)
    as (d' & [= <-] & Hlast).
  exists d, (store (PStr "fieldValues") (PDict d) entries).
  rewrite (process_item_nodes repr _ _ _ Hv Hn), Hd.
  destruct records; [contradiction|]; cbn [bind].
  split; [reflexivity|]; split; [|split].
  - rewrite lookup_store_str; cbn [key_eqb]; rewrite String.eqb_refl.
    reflexivity.
  - intros k; rewrite Hlast.
    destruct (last_value repr k (p :: records)); reflexivity.
  - intros k Hk; rewrite lookup_store_str; cbn [key_eqb].
    destruct (String.eqb_spec "fieldValues" k) as [<-|_];
      [contradiction | reflexivity].
Qed.


Section Client_properties.

Variable repr : pyval -> string.
Variable builtin_text : exn -> string.
Variable remote : list request -> request -> http_outcome.

#[local] Abbreviation handle' := (GitHubClient.handle repr builtin_text).
#[local] Abbreviation invoke' := (GitHubClient.invoke repr builtin_text remote).
#[local] Abbreviation node_id :=
  (GitHubClient.get_project_node_id repr builtin_text remote).

Ltac unfold_ops :=
  unfold GitHubClient.invoke, get_projects, get_project_fields,
    get_project_items, create_issue, add_issue_to_project,
    add_draft_issue_to_project, update_project_item_field,
    delete_project_item, update_project_settings in *;
  unfold io_bind, pure, io_raise in *.

Ltac steps :=
  repeat first
    [ rewrite get_project_node_id_run in *
    | rewrite execute_query_run in * by reflexivity
    | match goal with
      | H : context [match ?r with Ok _ => _ | Raise _ => _ end] |- _ =>
          destruct r eqn:?
      | |- context [match ?r with Ok _ => _ | Raise _ => _ end] =>
          destruct r eqn:?
      | |- context [if (?x =? ?y)%string then _ else _] =>
          destruct (x =? y)%string eqn:?
      end
    | progress cbn [fst snd] in * ].

(** X1.  One execution of a query sends exactly one request, with the given
    variables or an empty object in place of none.  It fails with nothing
    but [GitHubClientError], and it fails exactly when the exchange failed,
    the body reports errors, or the body carries no data; in every other
    case it returns the data member of the body. *)
Theorem execute_query_contract :
  forall (q : string) (vars : pyval) (log : list request),
    let sent := Request q (if truthy vars then vars else PDict []) in
    let run := execute_query repr builtin_text remote q vars log in
    snd run = (log ++ [sent])%list
    /\ (forall e, fst run = Raise e -> exists msg, e = GitHubClientError msg)
    /\ ((exists e, fst run = Raise e)
        <-> transport_failure (remote log sent)
            \/ reports_errors (remote log sent)
            \/ data_missing (remote log sent))
    /\ (forall entries data,
           remote log sent = Body (PDict entries) ->
           lookup (PStr "errors") entries = None ->
           lookup (PStr "data") entries = Some data ->
           data <> PNone ->
           fst run = Ok data).
Proof.
  intros q vars log sent run; subst sent run.
  unfold execute_query; cbn [fst snd].
  split; [reflexivity|].
  exact (handle_classification repr builtin_text _).
Qed.

(** X2.  No operation makes fewer than one or more than three transport
    calls, and none touches the requests already made: the log only grows
    at its end. *)
Theorem calls_bounded :
  forall (c : call) (log : list request),
  exists added,
    snd (invoke' c log) = (log ++ added)%list
    /\ (1 <= List.length added <= 3)%nat.
Proof.
  intros c log; destruct c; unfold_ops; steps.
  all: rewrite <- ?app_assoc; eexists; split; [reflexivity|];
    cbn [List.length app]; lia.
Qed.

(** X3.  Fail-fast, without retry: a call that fails is the last call of
    its run, and the operation raises exactly the failure of that call. *)
Theorem failed_call_ends_run :
  forall (c : call) (log before after : list request) (req : request)
         (e : exn),
    snd (invoke' c log) = (log ++ before ++ req :: after)%list ->
    handle' (remote (log ++ before)%list req) = Raise e ->
    after = [] /\ fst (invoke' c log) = Raise e.
Proof.
  intros c log before after req e Hlog Hfail.
  destruct c; unfold_ops;
    unfold GitHubClient.get_project_node_id, io_bind, pure in *; steps.
  all: rewrite <- ?app_assoc in *; cbn [app] in *.
  all: apply app_inv_head in Hlog.
  all: destruct before as [|b1 [|b2 [|b3 before]]]; cbn [app] in Hlog;
    try discriminate Hlog; injection Hlog as <-; intros; subst;
    rewrite ?app_nil_r in *; try discriminate;
    try match goal with
        | H : [] = (?b ++ _ :: _)%list |- _ => destruct b; discriminate H
        end;
    try (split; [reflexivity | congruence]);
    try congruence.
Qed.

(** X13.  Every request of a run but the last is one of the identity
    lookups.  So an operation sends at most one mutation, it sends it after
    everything it had to resolve, and nothing follows it. *)
Theorem only_lookups_before_last :
  forall (c : call) (log : list request),
  exists (before : list request) (last : request),
    snd (invoke' c log) = (log ++ before ++ [last])%list
    /\ Forall (fun r => In (query r) lookups) before.
Proof.
  intros c log; destruct c; unfold_ops; steps.
  all: rewrite <- ?app_assoc; cbn [app].
  all: first
    [ exists []; eexists; split; [reflexivity | constructor]
    | eexists [_]; eexists; split;
      [reflexivity | repeat constructor; cbn; tauto]
    | eexists [_; _]; eexists; split;
      [reflexivity | repeat constructor; cbn; tauto] ].
Qed.

(** Split on the outcome of the step the goal waits for. *)
Ltac split_result :=
  match goal with
  | |- context [match ?r with Ok _ => _ | Raise _ => _ end] => destruct r
  end.

(** ** The lookups *)

(** X4.  The project lookup makes one call.  Of its answer, the
    organization's project comes first: when the organization branch holds
    a project, the id of that project is the result, whatever the user
    branch holds; when it holds none and the user branch holds a project,
    the id of the user's project is the result; when neither holds one the
    lookup raises the project-not-found failure naming number and owner. *)
Theorem project_id_decision :
  forall (owner : string) (n : Z) (log : list request),
    let run := node_id owner n log in
    snd run = (log ++ [project_lookup owner n])%list
    /\ forall entries : list (pyval * pyval),
         handle' (remote log (project_lookup owner n)) = Ok (PDict entries) ->
         (forall (scope project : list (pyval * pyval)) (id : pyval),
             lookup (PStr "organization") entries = Some (PDict scope) ->
             lookup (PStr "projectV2") scope = Some (PDict project) ->
             lookup (PStr "id") project = Some id ->
             fst run = Ok id)
         /\ (forall (scope project : list (pyval * pyval)) (id : pyval),
                absent "organization" "projectV2" entries ->
                lookup (PStr "user") entries = Some (PDict scope) ->
                lookup (PStr "projectV2") scope = Some (PDict project) ->
                lookup (PStr "id") project = Some id ->
                fst run = Ok id)
         /\ (absent "organization" "projectV2" entries ->
             absent "user" "projectV2" entries ->
             fst run
             = Raise (GitHubClientError
                        ("Project " ++ str_int n ++ " not found for owner "
                         ++ owner ++ "."))).
Proof.
  intros owner n log run; subst run.
  rewrite get_project_node_id_run; cbn [fst snd].
  split; [reflexivity|].
  intros entries ->; cbn [bind]; unfold project_id_of.
  split; [|split].
  - intros scope project id Hs Hp Hi.
    destruct (lacks_present _ _ _ _ _ Hs Hp) as (-> & ->).
    rewrite (lookup_nonempty _ _ _ Hi); cbn [bind negb getitem].
    rewrite Hi; reflexivity.
  - intros scope project id Ho Hs Hp Hi.
    rewrite (lacks_absent _ _ _ Ho); cbn [bind negb].
    destruct (lacks_present _ _ _ _ _ Hs Hp) as (-> & ->).
    rewrite (lookup_nonempty _ _ _ Hi); cbn [bind negb getitem].
    rewrite Hi; reflexivity.
  - intros Ho Hu.
    rewrite (lacks_absent _ _ _ Ho); cbn [bind negb].
    rewrite (lacks_absent _ _ _ Hu); reflexivity.
Qed.

(** X14.  For a login that is neither an organization nor a user,
    [get_projects] raises the owner-not-found failure after the owner lookup
    alone: no page of projects is asked for. *)
Theorem get_projects_unknown_owner :
  forall (owner : string) (log : list request)
         (entries : list (pyval * pyval)),
    handle' (remote log (owner_lookup owner)) = Ok (PDict entries) ->
    null_or_missing "organization" entries ->
    null_or_missing "user" entries ->
    get_projects repr builtin_text remote owner log
    = (Raise (GitHubClientError
                ("Owner " ++ owner
                 ++ " not found or type could not be determined.")),
       (log ++ [owner_lookup owner])%list).
Proof.
  intros owner log entries Hdata Ho Hu.
  unfold get_projects, io_bind, pure.
  rewrite execute_query_run by reflexivity.
  fold (owner_lookup owner); rewrite Hdata.
  unfold owner_type, get.
  destruct Ho as [-> | ->], Hu as [-> | ->]; reflexivity.
Qed.

(** ** Reading fields and items *)

(** X5.  Once the project is resolved, [get_project_fields] makes exactly
    one further call, the fields query with the resolved id.  An answer
    without the node or without its fields raises the could-not-retrieve
    failure naming owner and number; otherwise the nodes of the fields are
    returned as they came. *)
Theorem get_project_fields_fetch :
  forall (owner : string) (n : Z) (log : list request) (project_id : pyval),
    fst (node_id owner n log) = Ok project_id ->
    let run := get_project_fields repr builtin_text remote owner n log in
    snd run = (log ++ [project_lookup owner n; fields_fetch project_id])%list
    /\ forall entries : list (pyval * pyval),
         handle' (remote (log ++ [project_lookup owner n])%list
                         (fields_fetch project_id))
         = Ok (PDict entries) ->
         (absent "node" "fields" entries ->
            fst run
            = Raise (GitHubClientError
                       ("Could not retrieve fields for project " ++ owner
                        ++ "/" ++ str_int n)))
         /\ (forall (node fields : list (pyval * pyval)) (nodes : pyval),
                lookup (PStr "node") entries = Some (PDict node) ->
                lookup (PStr "fields") node = Some (PDict fields) ->
                lookup (PStr "nodes") fields = Some nodes ->
                fst run = Ok nodes).
Proof.
  intros owner n log project_id Hid run; subst run.
  unfold get_project_fields, io_bind, pure.
  rewrite get_project_node_id_run in *; cbn [fst] in Hid; rewrite Hid.
  rewrite execute_query_run by reflexivity.
  fold (fields_fetch project_id).
  split.
  - split_result; rewrite <- app_assoc; reflexivity.
  - intros entries ->; cbn [fst]; split.
    + intros Ha; rewrite (require_absent _ _ _ _ Ha); reflexivity.
    + intros node fields nodes Hn Hf Hnodes.
      rewrite (require_present _ _ _ _ _ _ Hn Hf (lookup_nonempty _ _ _ Hnodes)).
      cbn [bind]; unfold getitem; rewrite Hnodes; reflexivity.
Qed.

(** X9.  Once the project is resolved, [get_project_items] makes exactly
    one further call, the items query with the resolved id and with the
    caller's limit as page size, unchanged.  An answer without the node or
    without its items raises the could-not-retrieve failure; otherwise the
    result is the nodes of the items after processing. *)
Theorem get_project_items_fetch :
  forall (owner : string) (n limit : Z) (log : list request)
         (project_id : pyval),
    fst (node_id owner n log) = Ok project_id ->
    let run := get_project_items repr builtin_text remote owner n limit log in
    snd run
    = (log ++ [project_lookup owner n; items_fetch project_id limit])%list
    /\ forall entries : list (pyval * pyval),
         handle' (remote (log ++ [project_lookup owner n])%list
                         (items_fetch project_id limit))
         = Ok (PDict entries) ->
         (absent "node" "items" entries ->
            fst run
            = Raise (GitHubClientError
                       ("Could not retrieve items for project " ++ owner
                        ++ "/" ++ str_int n)))
         /\ (forall (node items : list (pyval * pyval)) (nodes : pyval),
                lookup (PStr "node") entries = Some (PDict node) ->
                lookup (PStr "items") node = Some (PDict items) ->
                lookup (PStr "nodes") items = Some nodes ->
                fst run = process_items repr nodes).
Proof.
  intros owner n limit log project_id Hid run; subst run.
  unfold get_project_items, io_bind, pure.
  rewrite get_project_node_id_run in *; cbn [fst] in Hid; rewrite Hid.
  rewrite execute_query_run by reflexivity.
  fold (items_fetch project_id limit).
  split.
  - split_result; rewrite <- app_assoc; reflexivity.
  - intros entries ->; cbn [fst]; split.
    + intros Ha; rewrite (require_absent _ _ _ _ Ha); reflexivity.
    + intros node items nodes Hn Hf Hnodes.
      rewrite (require_present _ _ _ _ _ _ Hn Hf (lookup_nonempty _ _ _ Hnodes)).
      cbn [bind]; unfold getitem; rewrite Hnodes; reflexivity.
Qed.

(** ** Resolving before writing *)

(** X10.  [create_issue] looks the repository up first.  When the answer
    has no repository, it raises the repository-not-found failure and the
    lookup is the only call made: no issue is created.  When the answer
    has one, the next and last call is the creation, which carries the id
    of that repository with the title and the body as given. *)
Theorem create_issue_resolves_repository :
  forall (owner repo title body : string) (log : list request)
         (entries : list (pyval * pyval)),
    handle' (remote log (repository_lookup owner repo)) = Ok (PDict entries) ->
    let run := create_issue repr builtin_text remote owner repo title body log in
    (null_or_missing "repository" entries ->
       run = (Raise (GitHubClientError
                       ("Repository " ++ owner ++ "/" ++ repo ++ " not found")),
              (log ++ [repository_lookup owner repo])%list))
    /\ (forall (repository : list (pyval * pyval)) (id : pyval),
           lookup (PStr "repository") entries = Some (PDict repository) ->
           lookup (PStr "id") repository = Some id ->
           snd run
           = (log ++ [repository_lookup owner repo;
                      Request "CreateIssue"
                        (dict [("repositoryId", id); ("title", PStr title);
                               ("body", PStr body)])])%list).
Proof.
  intros owner repo title body log entries Hdata run; subst run.
  unfold create_issue, io_bind, pure.
  rewrite execute_query_run by reflexivity.
  fold (repository_lookup owner repo); rewrite Hdata.
  unfold getitem2, get, getitem; split.
  - intros [-> | ->]; reflexivity.
  - intros repository id -> Hi; cbn [bind].
    rewrite (lookup_nonempty _ _ _ Hi), Hi; cbn [negb bind].
    rewrite execute_query_run by reflexivity.
    split_result; rewrite <- app_assoc; reflexivity.
Qed.

(** X11.  [add_issue_to_project] resolves the project and then the issue.
    When the answer to the issue lookup has no repository or no issue, it
    raises the issue-not-found failure after these two calls: nothing is
    added.  When the issue is there, the third and last call is the
    addition, which carries the resolved project id and the id of that
    issue. *)
Theorem add_issue_resolves_issue :
  forall (owner : string) (n : Z) (issue_owner issue_repo : string)
         (issue_number : Z) (log : list request) (project_id : pyval)
         (entries : list (pyval * pyval)),
    fst (node_id owner n log) = Ok project_id ->
    handle' (remote (log ++ [project_lookup owner n])%list
                    (issue_lookup issue_owner issue_repo issue_number))
    = Ok (PDict entries) ->
    let run := add_issue_to_project repr builtin_text remote
                 owner n issue_owner issue_repo issue_number log in
    (absent "repository" "issue" entries ->
       run = (Raise (GitHubClientError
                       ("Issue " ++ str_int issue_number ++ " not found in "
                        ++ issue_owner ++ "/" ++ issue_repo)),
              (log ++ [project_lookup owner n;
                       issue_lookup issue_owner issue_repo issue_number])%list))
    /\ (forall (repository issue : list (pyval * pyval)) (id : pyval),
           lookup (PStr "repository") entries = Some (PDict repository) ->
           lookup (PStr "issue") repository = Some (PDict issue) ->
           lookup (PStr "id") issue = Some id ->
           snd run
           = (log ++ [project_lookup owner n;
                      issue_lookup issue_owner issue_repo issue_number;
                      Request "AddItemToProject"
                        (dict [("projectId", project_id);
                               ("contentId", id)])])%list).
Proof.
  intros owner n issue_owner issue_repo issue_number log project_id entries
    Hid Hdata run; subst run.
  unfold add_issue_to_project, io_bind, pure.
  rewrite get_project_node_id_run in *; cbn [fst] in Hid; rewrite Hid.
  rewrite execute_query_run by reflexivity.
  fold (issue_lookup issue_owner issue_repo issue_number); rewrite Hdata.
  split.
  - intros Ha; rewrite (require_absent _ _ _ _ Ha); cbn [bind].
    rewrite <- app_assoc; reflexivity.
  - intros repository issue id Hr Hi Hid'.
    rewrite (require_present _ _ _ _ _ _ Hr Hi (lookup_nonempty _ _ _ Hid')).
    cbn [bind]; unfold getitem at 1; rewrite Hid'.
    rewrite execute_query_run by reflexivity.
    split_result; rewrite <- !app_assoc; reflexivity.
Qed.

(** X17.  The mutation of an operation on a project acts on the project
    that the operation has just resolved: the id that the mutation request
    carries is the result of the lookup made in the same run. *)
Theorem mutation_targets_resolved_project :
  forall (c : call) (owner : string) (n : Z) (m : mutation)
         (log history : list request) (req : request) (project_id : pyval),
    project_scope c = Some (owner, n) ->
    mutation_of c = Some m ->
    fst (node_id owner n log) = Ok project_id ->
    snd (invoke' c log) = (history ++ [req])%list ->
    query req = document m ->
    carried_project_id req = Some project_id.
Proof.
  intros c owner n m log history req project_id Hc Hm Hid Hlog Hq.
  destruct c; cbn in Hc, Hm; try discriminate;
    injection Hc as -> ->; injection Hm as <-; cbn [document] in Hq.
  all: unfold_ops; rewrite get_project_node_id_run in *; cbn [fst] in Hid;
    rewrite Hid in *; steps.
  all: apply app_inj_tail in Hlog; destruct Hlog as [<- <-];
    try discriminate Hq.
  all: try reflexivity.
  all: destruct title, description, public; reflexivity.
Qed.

(** The run of [get_projects] for an owner of a known kind whose page of
    projects was answered with data. *)
Lemma get_projects_page (owner : string) (log : list request) (data : pyval)
    (kind : string) (id : pyval) (entries : list (pyval * pyval)) :
  handle' (remote log (owner_lookup owner)) = Ok data ->
  owner_type owner data = Ok (kind, id) ->
  handle' (remote (log ++ [owner_lookup owner])%list
                  (projects_fetch kind owner))
  = Ok (PDict entries) ->
  get_projects repr builtin_text remote owner log
  = (projects <- require (PDict entries) kind "projectsV2"
                   ("Could not retrieve projects for " ++ kind ++ " "
                    ++ owner) ;;
     getitem projects "nodes",
     (log ++ [owner_lookup owner; projects_fetch kind owner])%list).
Proof.
  intros Hdata Hkind Hpage.
  unfold get_projects, io_bind, pure, io_raise.
  rewrite execute_query_run by reflexivity.
  fold (owner_lookup owner); rewrite Hdata, Hkind; cbn [fst].
  destruct (owner_type_kind _ _ _ _ Hkind) as [-> | ->];
    cbn [String.eqb Ascii.eqb Bool.eqb];
    rewrite execute_query_run by reflexivity.
  all: match goal with
       | |- context [handle' (remote ?l ?r)] =>
           change r with (projects_fetch "organization" owner)
           || change r with (projects_fetch "user" owner)
       end.
  all: rewrite Hpage, <- app_assoc; reflexivity.
Qed.

End Client_properties.

(* ================================================================== *)
(** * Properties of the tools                                           *)
(* ================================================================== *)

(** The client operation a tool calls, with the value the update tool
    infers from its text. *)
Definition client_call (parse_float : string -> option spec_float)
    (t : Server.tool) : call :=
  match t with
  | Server.ListProjects owner => GetProjects owner
  | Server.ToolGetProjectFields owner n => GetProjectFields owner n
  | Server.ToolCreateIssue owner repo title body =>
      CreateIssue owner repo title body
  | Server.ToolAddIssueToProject owner n io ir i =>
      AddIssueToProject owner n io ir i
  | Server.ToolUpdateProjectItemField owner n item field text =>
      UpdateProjectItemField owner n item field
        (Server.parsed_value parse_float text)
  | Server.CreateDraftIssue owner n title body =>
      AddDraftIssueToProject owner n title body
  | Server.ToolDeleteProjectItem owner n item => DeleteProjectItem owner n item
  end.

(** The text a tool returns for a failure of the client with the given
    details. *)
Definition error_text (t : Server.tool) (details : string) : string :=
  match t with
  | Server.ListProjects owner =>
      "Error: Could not list projects for " ++ owner
      ++ ". Details: " ++ details
  | Server.ToolGetProjectFields owner n =>
      "Error: Could not get fields for project " ++ owner ++ "/" ++ str_int n
      ++ ". Details: " ++ details
  | Server.ToolCreateIssue owner repo _ _ =>
      "Error: Could not create issue in " ++ owner ++ "/" ++ repo
      ++ ". Details: " ++ details
  | Server.ToolAddIssueToProject _ _ _ _ _ =>
      "Error: Could not add issue to project. Details: " ++ details
  | Server.ToolUpdateProjectItemField _ _ _ _ _ =>
      "Error: Could not update field value. Details: " ++ details
  | Server.CreateDraftIssue _ _ _ _ =>
      "Error: Could not create draft issue. Details: " ++ details
  | Server.ToolDeleteProjectItem _ _ _ =>
      "Error: Could not delete item. Details: " ++ details
  end.

(** The field id takes text: it has none of the four prefixes that want a
    value of a kind of their own. *)
Definition text_field (field_id : string) : bool :=
  negb (string_field field_id || startswith field_id "PVTNU_").

(** The text that reaches a text field for the text given to the tool. *)
Definition text_sent (repr : pyval -> string)
    (parse_float : string -> option spec_float) (text : string) : string :=
  match parse_float text with
  | Some x =>
      match float_integral x with
      | Some k => str_int k
      | None => repr (PFloat x)
      end
  | None => text
  end.

(** What the handler of a tool makes of a run of the client followed by the
    formatting of its result. *)
Lemma except_client_error_run {A : Type} (client : io A)
    (format : A -> Py.result string) (handler : string -> string)
    (log : list request) :
  let run := Server.except_client_error
               (io_bind client (fun a => pure (format a))) handler log in
  snd run = snd (client log)
  /\ (forall msg, fst (client log) = Raise (GitHubClientError msg) ->
                  fst run = Ok (handler msg))
  /\ (forall e, fst (client log) = Raise e ->
                (forall msg, e <> GitHubClientError msg) ->
                fst run = Raise e)
  /\ (forall msg, fst run <> Raise (GitHubClientError msg)).
Proof.
  intros run; subst run.
  unfold Server.except_client_error, io_bind, pure.
  destruct (client log) as [[a|e] log']; cbn [fst snd].
  - destruct (format a) as [s|[msg| | | | |]]; cbn [fst snd];
      repeat split; discriminate.
  - destruct e as [msg| | | | |]; cbn [fst snd]; repeat split;
      try discriminate; try (intros ? [= <-]; reflexivity);
      try (intros ? [= <-] H; reflexivity).
    intros e [= <-] H; exfalso; exact (H msg eq_refl).
Qed.

(** ** Doubles and the limit on digits *)

Lemma digits2_pos_bound (m : positive) : Z.pos m < 2 ^ Z.pos (digits2_pos m).
Proof.
  induction m as [m IH | m IH |]; cbn [digits2_pos];
    rewrite ?Pos2Z.inj_succ, ?Z.pow_succ_r by lia; lia.
Qed.

(** The integer that a double denotes is below [2 ^ 1024] in magnitude. *)
Lemma double_integral_bound (x : spec_float) (k : Z) :
  valid_binary prec emax x = true ->
  float_integral x = Some k ->
  Z.abs k < 2 ^ 1024.
Proof.
  assert (Hpow : forall a b, 0 <= a <= b -> 2 ^ a <= 2 ^ b)
    by (intros a b Hab; apply Z.pow_le_mono_r; lia).
  destruct x as [s | s | | s m e]; cbn [valid_binary float_integral];
    try discriminate.
  - intros _ [= <-]; apply Z.pow_pos_nonneg; lia.
  - unfold bounded, canonical_mantissa, fexp, emin, prec, emax.
    intros Hv; apply andb_true_iff in Hv; destruct Hv as (Hc & He).
    apply Z.eqb_eq in Hc; apply Z.leb_le in He.
    assert (Hd : Z.pos (digits2_pos m) <= 53) by lia.
    pose proof (digits2_pos_bound m) as Hm.
    pose proof (Hpow _ _ (conj (Pos2Z.is_nonneg (digits2_pos m)) Hd)) as H53.
    assert (Hs : Z.abs (if s then Z.neg m else Z.pos m) = Z.pos m)
      by (destruct s; reflexivity).
    destruct (0 <=? e) eqn:E.
    + apply Z.leb_le in E; intros [= <-].
      rewrite Z.abs_mul, Hs, (Z.abs_eq (2 ^ e)) by (apply Z.pow_nonneg; lia).
      apply Z.lt_le_trans with (2 ^ 53 * 2 ^ e).
      * apply Z.mul_lt_mono_pos_r; [apply Z.pow_pos_nonneg; lia | lia].
      * rewrite <- Z.pow_add_r by lia; apply Hpow; lia.
    + apply Z.leb_gt in E.
      destruct (Z.pos m mod 2 ^ (- e) =? 0) eqn:Em; [|discriminate].
      apply Z.eqb_eq in Em; intros [= <-].
      assert (Hp : 0 < 2 ^ (- e)) by (apply Z.pow_pos_nonneg; lia).
      assert (Hq : Z.abs ((if s then Z.neg m else Z.pos m) / 2 ^ (- e))
                   <= Z.pos m).
      { destruct s.
        - change (Z.neg m) with (- Z.pos m).
          rewrite Z_div_zero_opp_full, Z.abs_opp by exact Em.
          rewrite Z.abs_eq by (apply Z.div_pos; lia).
          apply Z.div_le_upper_bound; nia.
        - rewrite Z.abs_eq by (apply Z.div_pos; lia).
          apply Z.div_le_upper_bound; nia. }
      pose proof (Hpow 53 1024 ltac:(lia)); lia.
Qed.

(** So its text is within the limit on digits. *)
Lemma double_integral_renders (x : spec_float) (k : Z) :
  valid_binary prec emax x = true ->
  float_integral x = Some k ->
  renders (PInt k) = true.
Proof.
  intros Hv Hk; cbn [renders]; unfold within_str_digits, max_str_digits.
  apply Z.ltb_lt.
  apply Z.lt_trans with (2 ^ 1024);
    [exact (double_integral_bound x k Hv Hk)|].
  apply Z.lt_le_trans with (10 ^ 1024).
  - apply Z.pow_lt_mono_l; lia.
  - apply Z.pow_le_mono_r; lia.
Qed.

Section Tool_properties.

Variable repr : pyval -> string.
Variable builtin_text : exn -> string.
Variable remote : list request -> request -> http_outcome.
Variable parse_float : string -> option spec_float.

(** What [float] returns is a double. *)
Hypothesis parse_float_double :
  forall (text : string) (x : spec_float),
    parse_float text = Some x -> valid_binary prec emax x = true.

#[local] Abbreviation run_tool :=
  (Server.run_tool repr builtin_text remote parse_float).
#[local] Abbreviation update_tool :=
  (Server.update_project_item_field repr builtin_text remote parse_float).

(** X15.  A tool makes the calls of its client operation and no other.  A
    failure of the client never leaves a tool as an exception: the tool
    returns its error text, which ends in the details of the failure.  Any
    other exception of the operation passes through the tool unchanged. *)
Theorem tools_contain_client_errors :
  forall (t : Server.tool) (log : list request),
    let client :=
      invoke repr builtin_text remote (client_call parse_float t) log in
    let run := run_tool t log in
    snd run = snd client
    /\ (forall msg, fst client = Raise (GitHubClientError msg) ->
                    fst run = Ok (error_text t msg))
    /\ (forall e, fst client = Raise e ->
                  (forall msg, e <> GitHubClientError msg) ->
                  fst run = Raise e)
    /\ (forall msg, fst run <> Raise (GitHubClientError msg)).
Proof.
  intros t log client run; subst client run.
  destruct t; cbn [Server.run_tool client_call invoke error_text];
    unfold Server.list_projects, Server.get_project_fields,
      Server.create_issue, Server.add_issue_to_project,
      Server.update_project_item_field, Server.create_draft_issue,
      Server.delete_project_item;
    apply except_client_error_run.
Qed.

#[local] Abbreviation node_id' :=
  (GitHubClient.get_project_node_id repr builtin_text remote).

(** The update operation of the client once the project is resolved: a
    value that gives no input ends the run, a value that gives one is
    sent. *)
Lemma update_run (owner : string) (n : Z) (item_id field_id : string)
    (value : pyval) (log : list request) (project_id : pyval) :
  fst (node_id' owner n log) = Ok project_id ->
  let run := GitHubClient.update_project_item_field repr builtin_text remote
               owner n item_id field_id value log in
  (forall e, field_value_input repr field_id value = Raise e ->
             run = (Raise e, (log ++ [project_lookup owner n])%list))
  /\ (forall input, field_value_input repr field_id value = Ok input ->
        snd run = (log ++ [project_lookup owner n;
                           field_update project_id item_id field_id input])%list).
Proof.
  intros Hid run; subst run.
  unfold GitHubClient.update_project_item_field, io_bind, pure.
  rewrite get_project_node_id_run in *; cbn [fst] in Hid; rewrite Hid.
  split.
  - intros e ->; reflexivity.
  - intros input ->.
    rewrite execute_query_run by reflexivity.
    fold (field_update project_id item_id field_id input).
    match goal with
    | |- context [match ?r with Ok _ => _ | Raise _ => _ end] => destruct r
    end; rewrite <- app_assoc; reflexivity.
Qed.

(** X16.  The update tool decides the kind of its value from the text
    alone, so text and field can disagree.  With the project resolved, a
    text that [float] accepts is rejected by a field that wants a string
    (single select, iteration, date), and a text that [float] does not
    accept is rejected by a number field: the tool returns its error text
    with the invalid-type details, and the project lookup is the only call
    made. *)
Theorem tool_value_kind_mismatch :
  forall (owner : string) (n : Z) (item_id field_id text : string)
         (log : list request) (project_id : pyval),
    fst (node_id' owner n log) = Ok project_id ->
    ((exists x, parse_float text = Some x) /\ string_field field_id = true)
    \/ (parse_float text = None /\ startswith field_id "PVTNU_" = true) ->
    exists kind expected,
      update_tool owner n item_id field_id text log
      = (Ok ("Error: Could not update field value. Details: "
             ++ "Invalid value type for " ++ kind ++ " field " ++ field_id
             ++ ". Expected " ++ expected ++ "."),
         (log ++ [project_lookup owner n])%list).
Proof.
  intros owner n item_id field_id text log project_id Hid Hkind.
  assert (Hw : wrong_type field_id (Server.parsed_value parse_float text)
               = true).
  { unfold wrong_type, Server.parsed_value, string_field in *.
    destruct Hkind as [((x & ->) & Hs) | (-> & Hn)].
    - assert (Hv : forall v, v = PInt (Server.int_of_float x) \/ v = PFloat x
                             -> isinstance_str v = false)
        by (intros v [-> | ->]; reflexivity).
      rewrite (Hv (if Server.is_integer x then _ else _))
        by (destruct (Server.is_integer x); auto).
      cbn [negb]; rewrite !andb_true_r.
      rewrite !orb_true_iff in *; tauto.
    - rewrite Hn; cbn [isinstance_int_float negb andb].
      apply orb_true_r. }
  destruct (wrong_type_rejected repr _ _ Hw) as (kind & expected & Hi).
  exists kind, expected.
  unfold Server.update_project_item_field, Server.except_client_error,
    io_bind, pure.
  rewrite (proj1 (update_run owner n item_id field_id _ log project_id Hid)
             _ Hi).
  reflexivity.
Qed.

(** X18.  On a field that takes text, the update tool does not always send
    the text it was given.  With the project resolved, the second and last
    call is the update, and its text is: the text as given when [float]
    does not accept it; the decimal rendering of the integer when the text
    reads as a whole number; the rendering of the float when it reads as
    any other number.  (The whole number of a double is within the limit on
    digits, so its conversion to text is never refused.) *)
Theorem text_field_value_sent :
  forall (owner : string) (n : Z) (item_id field_id text : string)
         (log : list request) (project_id : pyval),
    fst (node_id' owner n log) = Ok project_id ->
    text_field field_id = true ->
    snd (update_tool owner n item_id field_id text log)
    = (log ++ [project_lookup owner n;
               field_update project_id item_id field_id
                 (dict [("text", PStr (text_sent repr parse_float text))])])%list.
Proof.
  intros owner n item_id field_id text log project_id Hid Hf.
  assert (Hi : field_value_input repr field_id
                 (Server.parsed_value parse_float text)
               = Ok (dict [("text", PStr (text_sent repr parse_float text))])).
  { unfold text_field, string_field in Hf.
    apply negb_true_iff in Hf; rewrite !orb_false_iff in Hf.
    destruct Hf as (((H1 & H2) & H3) & H4).
    unfold field_value_input; rewrite H1, H2, H3, H4.
    unfold Server.parsed_value, text_sent, Server.is_integer,
      Server.int_of_float.
    destruct (parse_float text) as [x|] eqn:Hx;
      [destruct (float_integral x) as [k|] eqn:Hk|];
      cbn [isinstance_str]; unfold str_of_value;
      rewrite ?(double_integral_renders x k (parse_float_double _ _ Hx) Hk);
      destruct (startswith field_id "PVTF_"); reflexivity. }
  pose proof (proj2 (update_run owner n item_id field_id _ log project_id Hid)
                _ Hi) as Hrun.
  unfold Server.update_project_item_field, Server.except_client_error,
    io_bind, pure.
  rewrite <- Hrun.
  destruct (GitHubClient.update_project_item_field _ _ _ _ _ _ _ _ _)
    as [[a|[msg| | | | |]] log'];
    reflexivity.
Qed.

(** The loop [for x in l: result += line(x)] appends the lines in order. *)
Lemma append_lines_blocks (line : pyval -> Py.result string) (l : list pyval)
    (blocks : list string) :
  Forall2 (fun x s => line x = Ok s) l blocks ->
  forall result,
    Server.append_lines line l result
    = Ok (fold_left String.append blocks result).
Proof.
  induction 1 as [|x s rest blocks' Hx _ IH]; intros result;
    cbn [Server.append_lines fold_left]; [reflexivity|].
  rewrite Hx; cbn [bind]; apply IH.
Qed.

(** X19.  What [list_projects] returns for an owner of a known kind whose
    page of projects was answered with data.  A collection that is absent
    gives the tool's error text with the could-not-retrieve details; an
    empty collection gives the no-projects text, which is not an error; a
    collection with projects gives the heading followed by one block for
    each project, in the order of the answer. *)
Theorem list_projects_texts :
  forall (owner : string) (log : list request) (data : pyval) (kind : string)
         (id : pyval) (entries : list (pyval * pyval)),
    GitHubClient.handle repr builtin_text (remote log (owner_lookup owner))
    = Ok data ->
    owner_type owner data = Ok (kind, id) ->
    GitHubClient.handle repr builtin_text
      (remote (log ++ [owner_lookup owner])%list (projects_fetch kind owner))
    = Ok (PDict entries) ->
    let text :=
      fst (Server.list_projects repr builtin_text remote owner log) in
    (absent kind "projectsV2" entries ->
       text = Ok ("Error: Could not list projects for " ++ owner
                  ++ ". Details: Could not retrieve projects for " ++ kind
                  ++ " " ++ owner))
    /\ (forall (scope collection : list (pyval * pyval)) (l : list pyval)
               (blocks : list string),
           lookup (PStr kind) entries = Some (PDict scope) ->
           lookup (PStr "projectsV2") scope = Some (PDict collection) ->
           lookup (PStr "nodes") collection = Some (PList l) ->
           Forall2 (fun project block =>
                      Server.project_lines repr project = Ok block) l blocks ->
           text = Ok (match blocks with
                      | [] => "No projects found for " ++ owner
                      | _ :: _ =>
                          fold_left String.append blocks
                            ("Projects for " ++ owner ++ ":" ++ Server.nl
                             ++ Server.nl)
                      end)).
Proof.
  intros owner log data kind id entries Hdata Hkind Hpage text; subst text.
  unfold Server.list_projects, Server.except_client_error, io_bind, pure.
  rewrite (get_projects_page repr builtin_text remote _ _ _ _ _ _
             Hdata Hkind Hpage).
  split.
  - intros Ha; rewrite (require_absent _ _ _ _ Ha); reflexivity.
  - intros scope collection l blocks Hs Hc Hn Hl.
    rewrite (require_present _ _ _ _ _ _ Hs Hc (lookup_nonempty _ _ _ Hn)).
    cbn [bind]; unfold getitem; rewrite Hn.
    destruct Hl as [|project block l blocks Hp Hl]; [reflexivity|].
    cbn [truthy negb iterate bind].
    rewrite (append_lines_blocks _ _ _ (Forall2_cons _ _ Hp Hl)).
    reflexivity.
Qed.

End Tool_properties.

(* ================================================================== *)
(** * The further properties at work on the sample remotes              *)
(* ================================================================== *)

Section More_runs.
Import Examples MoreExamples.

(** The repository lookup of [initech/tps] returns the data of the body. *)
Lemma execute_query_contract_witness :
  fst (execute_query repr0 text0 remote_project "GetRepositoryId"
         (dict [("owner", PStr "initech"); ("name", PStr "tps")]) [])
  = Ok (dict [("repository", dict [("id", PStr "R1")])]).
Proof.
  pose proof (execute_query_contract repr0 text0 remote_project
                "GetRepositoryId"
                (dict [("owner", PStr "initech"); ("name", PStr "tps")]) [])
    as H.
  cbv zeta in H; destruct H as (_ & _ & _ & H).
  eapply H; [reflexivity | reflexivity | reflexivity | discriminate].
Defined.

(** Adding a draft where the remote knows no mutation: the addition is the
    second call, it fails, and the run ends with its failure. *)
Lemma failed_call_ends_run_witness :
  fst (invoke repr0 text0 remote_lookup_only
         (AddDraftIssueToProject "acme" 1 "Draft" "") [])
  = Raise (GitHubClientError
             "Unexpected error executing GraphQL query: GraphQL query errors: <value>").
Proof.
  apply (failed_call_ends_run repr0 text0 remote_lookup_only
           (AddDraftIssueToProject "acme" 1 "Draft" "")
           [] [project_lookup "acme" 1] []
           (Request "AddDraftIssueToProject"
              (dict [("projectId", PStr "P1"); ("title", PStr "Draft");
                     ("body", PStr "")]))
           _ eq_refl eq_refl).
Defined.

(** The project of the organization [initech] is found in the organization
    branch; on a remote that knows nobody the lookup fails. *)
Lemma project_id_decision_witness :
  fst (get_project_node_id repr0 text0 remote_project "initech" 7 [])
  = Ok (PStr "P7")
  /\ fst (get_project_node_id repr0 text0 remote_nobody "ghost" 7 [])
     = Raise (GitHubClientError "Project 7 not found for owner ghost.").
Proof.
  split.
  - pose proof (project_id_decision repr0 text0 remote_project "initech" 7 [])
      as H.
    cbv zeta in H; destruct H as (_ & H).
    destruct (H _ eq_refl) as (Horg & _).
    exact (Horg _ _ (PStr "P7") eq_refl eq_refl eq_refl).
  - pose proof (project_id_decision repr0 text0 remote_nobody "ghost" 7 [])
      as H.
    cbv zeta in H; destruct H as (_ & H).
    destruct (H _ eq_refl) as (_ & _ & Hnone).
    apply Hnone; left; right; reflexivity.
Defined.

(** Nobody is behind the login [ghost]. *)
Lemma get_projects_unknown_owner_witness :
  get_projects repr0 text0 remote_nobody "ghost" []
  = (Raise (GitHubClientError
              "Owner ghost not found or type could not be determined."),
     [owner_lookup "ghost"]).
Proof.
  apply (get_projects_unknown_owner repr0 text0 remote_nobody "ghost" [] _
           eq_refl);
    right; reflexivity.
Defined.

(** The two fields of project [P7]. *)
Lemma get_project_fields_fetch_witness :
  get_project_fields repr0 text0 remote_project "initech" 7 []
  = (Ok (PList [dict [("id", PStr "PVTF_1"); ("name", PStr "Title")];
                dict [("id", PStr "PVTNU_2"); ("name", PStr "Points")]]),
     [project_lookup "initech" 7; fields_fetch (PStr "P7")]).
Proof.
  pose proof (get_project_fields_fetch repr0 text0 remote_project "initech" 7
                [] (PStr "P7") eq_refl) as H.
  cbv zeta in H; destruct H as (Hlog & H).
  destruct (H _ eq_refl) as (_ & Hnodes).
  rewrite (surjective_pairing (get_project_fields _ _ _ _ _ _)), Hlog.
  rewrite (Hnodes _ _ _ eq_refl eq_refl eq_refl).
  reflexivity.
Defined.

(** A page of five items is asked of [acme]'s project. *)
Lemma get_project_items_fetch_witness :
  snd (get_project_items repr0 text0 remote_acme "acme" 1 5 [])
  = [project_lookup "acme" 1; items_fetch (PStr "P1") 5]
  /\ fst (get_project_items repr0 text0 remote_acme "acme" 1 5 [])
     = process_items repr0 two_items.
Proof.
  pose proof (get_project_items_fetch repr0 text0 remote_acme "acme" 1 5
                [] (PStr "P1") eq_refl) as H.
  cbv zeta in H; destruct H as (Hlog & H).
  destruct (H _ eq_refl) as (_ & Hnodes).
  split; [exact Hlog | exact (Hnodes _ _ _ eq_refl eq_refl eq_refl)].
Defined.

(** The second of the two items: its mapping has the iteration under the
    name of its field and the record without a field under the
    unknown-field name. *)
Lemma item_field_values_mapping_witness :
  exists mapping entries',
    process_item repr0
      (dict [("id", PStr "I2");
             ("fieldValues", dict [("nodes", PList sprint_records)])])
    = Ok (PDict entries')
    /\ lookup (PStr "fieldValues") entries' = Some (PDict mapping)
    /\ (forall k, lookup (PStr k) mapping = last_value repr0 k sprint_records)
    /\ (forall k, k <> "fieldValues" ->
                  lookup (PStr k) entries'
                  = lookup (PStr k)
                      [(PStr "id", PStr "I2");
                       (PStr "fieldValues",
                        dict [("nodes", PList sprint_records)])]).
Proof.
  apply (item_field_values_mapping repr0
           [(PStr "id", PStr "I2");
            (PStr "fieldValues", dict [("nodes", PList sprint_records)])]
           [(PStr "nodes", PList sprint_records)] sprint_records
           eq_refl eq_refl).
  - discriminate.
  - repeat constructor.
    + exists [(PStr "__typename", PStr "ProjectV2ItemFieldIterationValue");
              (PStr "title", PStr "Sprint 4");
              (PStr "startDate", PStr "2025-01-01");
              (PStr "field", dict [("name", PStr "Iteration")])],
        [(PStr "name", PStr "Iteration")], "Iteration".
      repeat split.
    + exists [], [], "UnknownField"; repeat split.
Defined.


(** No repository on [remote_nobody]; on [remote_project] the creation
    carries the id of [initech/tps]. *)
Lemma create_issue_resolves_repository_witness :
  create_issue repr0 text0 remote_nobody "ghost" "tps" "Title" "Body" []
  = (Raise (GitHubClientError "Repository ghost/tps not found"),
     [repository_lookup "ghost" "tps"])
  /\ snd (create_issue repr0 text0 remote_project "initech" "tps" "Title"
            "Body" [])
     = [repository_lookup "initech" "tps";
        Request "CreateIssue"
          (dict [("repositoryId", PStr "R1"); ("title", PStr "Title");
                 ("body", PStr "Body")])].
Proof.
  split.
  - pose proof (create_issue_resolves_repository repr0 text0 remote_nobody
                  "ghost" "tps" "Title" "Body" [] _ eq_refl) as H.
    cbv zeta in H; apply (proj1 H); right; reflexivity.
  - pose proof (create_issue_resolves_repository repr0 text0 remote_project
                  "initech" "tps" "Title" "Body" [] _ eq_refl) as H.
    cbv zeta in H; exact (proj2 H _ (PStr "R1") eq_refl eq_refl).
Defined.

(** Issue 9 of [initech/tps] is added under its id [I9] to project [P7]. *)
Lemma add_issue_resolves_issue_witness :
  snd (add_issue_to_project repr0 text0 remote_project "initech" 7
         "initech" "tps" 9 [])
  = [project_lookup "initech" 7; issue_lookup "initech" "tps" 9;
     Request "AddItemToProject"
       (dict [("projectId", PStr "P7"); ("contentId", PStr "I9")])].
Proof.
  pose proof (add_issue_resolves_issue repr0 text0 remote_project "initech" 7
                "initech" "tps" 9 [] (PStr "P7") _ eq_refl eq_refl) as H.
  cbv zeta in H; exact (proj2 H _ _ (PStr "I9") eq_refl eq_refl eq_refl).
Defined.

(** The input for a date. *)
Lemma field_value_input_one_of_witness :
  exists key payload,
    dict [("date", PStr "2025-01-01")] = dict [(key, payload)]
    /\ In key input_keys
    /\ (key = "number" -> exists x, payload = PFloat x)
    /\ (key <> "number" -> exists s, payload = PStr s).
Proof.
  exact (field_value_input_one_of repr0 "PVTDF_1" (PStr "2025-01-01") _
           eq_refl).
Defined.

(** The deletion on [acme]'s project carries [P1]. *)
Lemma mutation_targets_resolved_project_witness :
  carried_project_id
    (Request "DeleteProjectItem"
       (dict [("projectId", PStr "P1"); ("itemId", PStr "I1")]))
  = Some (PStr "P1").
Proof.
  exact (mutation_targets_resolved_project repr0 text0 remote_acme
           (DeleteProjectItem "acme" 1 "I1") "acme" 1 _ []
           [project_lookup "acme" 1] _ (PStr "P1")
           eq_refl eq_refl eq_refl eq_refl eq_refl).
Defined.

(** With the remote down, listing projects returns the error text. *)
Lemma tools_contain_client_errors_witness :
  fst (Server.run_tool repr0 text0 remote_down parse_float0
         (Server.ListProjects "acme") [])
  = Ok "Error: Could not list projects for acme. Details: Unexpected error executing GraphQL query: connection refused".
Proof.
  pose proof (tools_contain_client_errors repr0 text0 remote_down parse_float0
                (Server.ListProjects "acme") []) as H.
  cbv zeta in H; destruct H as (_ & H & _).
  exact (H _ eq_refl).
Defined.

(** A date field is sent [42.0], and a number field is sent [soon]. *)
Lemma tool_value_kind_mismatch_witness :
  (exists kind expected,
      Server.update_project_item_field repr0 text0 remote_lookup_only
        parse_float0 "acme" 1 "I1" "PVTDF_1" "42.0" []
      = (Ok ("Error: Could not update field value. Details: "
             ++ "Invalid value type for " ++ kind ++ " field " ++ "PVTDF_1"
             ++ ". Expected " ++ expected ++ "."),
         [project_lookup "acme" 1]))
  /\ (exists kind expected,
         Server.update_project_item_field repr0 text0 remote_lookup_only
           parse_float0 "acme" 1 "I1" "PVTNU_1" "soon" []
         = (Ok ("Error: Could not update field value. Details: "
                ++ "Invalid value type for " ++ kind ++ " field " ++ "PVTNU_1"
                ++ ". Expected " ++ expected ++ "."),
            [project_lookup "acme" 1])).
Proof.
  split.
  - apply (tool_value_kind_mismatch repr0 text0 remote_lookup_only parse_float0
             "acme" 1 "I1" "PVTDF_1" "42.0" [] (PStr "P1") eq_refl).
    left; split; [eexists; reflexivity | reflexivity].
  - apply (tool_value_kind_mismatch repr0 text0 remote_lookup_only parse_float0
             "acme" 1 "I1" "PVTNU_1" "soon" [] (PStr "P1") eq_refl).
    right; split; reflexivity.
Defined.

(** The two numbers that [parse_float0] reads are doubles. *)
Lemma parse_float0_double (text : string) (x : spec_float) :
  parse_float0 text = Some x -> valid_binary prec emax x = true.
Proof.
  unfold parse_float0.
  destruct (text =? "42.0")%string; [intros [= <-]; reflexivity|].
  destruct (text =? "1.5")%string; [intros [= <-]; reflexivity|].
  discriminate.
Qed.

(** The text [42.0] reaches a text field as [42]. *)
Lemma text_field_value_sent_witness :
  snd (Server.update_project_item_field repr0 text0 remote_lookup_only
         parse_float0 "acme" 1 "I1" "PVTF_1" "42.0" [])
  = [project_lookup "acme" 1;
     field_update (PStr "P1") "I1" "PVTF_1" (dict [("text", PStr "42")])].
Proof.
  exact (text_field_value_sent repr0 text0 remote_lookup_only parse_float0
           parse_float0_double "acme" 1 "I1" "PVTF_1" "42.0" [] (PStr "P1")
           eq_refl eq_refl).
Defined.

(** A number value under the name of its field; a value of a type without
    a fragment as the placeholder under the unknown-field name. *)
Lemma field_value_by_discriminator_witness :
  field_value repr0
    (dict [("__typename", PStr "ProjectV2ItemFieldNumberValue");
           ("number", PInt 3); ("field", dict [("name", PStr "Points")])])
  = Ok (PStr "Points", PInt 3)
  /\ field_value repr0 (dict [("__typename", PStr "ProjectV2ItemFieldUserValue")])
     = Ok (PStr "UnknownField", PStr "N/A").
Proof.
  split.
  - pose proof (field_value_by_discriminator repr0
                  [(PStr "__typename", PStr "ProjectV2ItemFieldNumberValue");
                   (PStr "number", PInt 3);
                   (PStr "field", dict [("name", PStr "Points")])]
                  [(PStr "name", PStr "Points")] eq_refl) as H.
    cbv zeta in H; destruct H as (_ & _ & _ & H & _).
    exact (H eq_refl).
  - pose proof (field_value_by_discriminator repr0
                  [(PStr "__typename", PStr "ProjectV2ItemFieldUserValue")]
                  [] eq_refl) as H.
    cbv zeta in H; destruct H as (_ & _ & _ & _ & _ & H).
    apply H; intros s Hs; cbn in Hs.
    repeat (destruct Hs as [<- | Hs]; [discriminate|]).
    contradiction.
Defined.

(** [acme]'s one project is listed under the heading; [initech] has no
    projects. *)
Lemma list_projects_texts_witness :
  fst (Server.list_projects repr0 text0 remote_acme "acme" [])
  = Ok ("Projects for acme:" ++ Server.nl ++ Server.nl
        ++ "- ID: P1" ++ Server.nl
        ++ "  Number: 1" ++ Server.nl
        ++ "  Title: Roadmap" ++ Server.nl
        ++ "  URL: https://x" ++ Server.nl
        ++ Server.nl)
  /\ fst (Server.list_projects repr0 text0 remote_initech "initech" [])
     = Ok "No projects found for initech".
Proof.
  split.
  - pose proof (list_projects_texts repr0 text0 remote_acme "acme" [] _
                  "user" (PStr "U1") _ eq_refl eq_refl eq_refl) as H.
    cbv zeta in H; destruct H as (_ & H).
    rewrite (H _ _ [roadmap]
               ["- ID: P1" ++ Server.nl ++ "  Number: 1" ++ Server.nl
                ++ "  Title: Roadmap" ++ Server.nl
                ++ "  URL: https://x" ++ Server.nl ++ Server.nl]
               eq_refl eq_refl eq_refl)
      by (constructor; [reflexivity | constructor]).
    reflexivity.
  - pose proof (list_projects_texts repr0 text0 remote_initech "initech" [] _
                  "organization" (PStr "O1") _ eq_refl eq_refl eq_refl) as H.
    cbv zeta in H; destruct H as (_ & H).
    exact (H _ _ [] [] eq_refl eq_refl eq_refl (Forall2_nil _)).
Defined.

End More_runs.
